(** * express-route-visualizer: route discovery, verified against its specification

    A shallow embedding of [src/extract-routes.utils.ts],
    [src/extract-routes.ts] and the path helpers of [src/print-routes.ts].

    Modelling conventions.
    - A JavaScript string is a Rocq [string]; its characters are 8-bit code
      units, and case conversion follows JavaScript on the ASCII letters.
    - A [RegExp] object is represented by the text its [toString()] returns
      (slash, source, slash, flags); the code never does anything else with it.
    - A value that may be [null]/[undefined] (or any other falsy value) is an
      [option]; JavaScript truthiness is written out where the code tests it.
    - [console.warn] is modelled by returning the list of emitted warnings
      next to the result. *)

From Stdlib Require Import Strings.String Strings.Ascii List Bool Arith Lia.
Import ListNotations.
Open Scope string_scope.
Open Scope bool_scope.

(** ** JavaScript string primitives used by the source *)

Module Js.

(** [s.startsWith(p)] *)
Fixpoint startsWith (s p : string) {struct p} : bool :=
  match p with
  | EmptyString => true
  | String c p' =>
      match s with
      | EmptyString => false
      | String d s' => Ascii.eqb d c && startsWith s' p'
      end
  end.

(** [s.endsWith(p)]: some suffix of [s] is [p]. *)
Fixpoint endsWith (s p : string) : bool :=
  String.eqb s p
  || match s with
     | EmptyString => false
     | String _ s' => endsWith s' p
     end.

(** [s.includes(sub)] *)
Fixpoint includes (s sub : string) : bool :=
  startsWith s sub
  || match s with
     | EmptyString => false
     | String _ s' => includes s' sub
     end.

(** [s.substring(1)] *)
Definition substring1 (s : string) : string :=
  match s with
  | EmptyString => EmptyString
  | String _ s' => s'
  end.

(** [s.slice(0, -1)] *)
Fixpoint slice_0_m1 (s : string) : string :=
  match s with
  | EmptyString => EmptyString
  | String c s' =>
      match s' with
      | EmptyString => EmptyString
      | String _ _ => String c (slice_0_m1 s')
      end
  end.

(** [s.slice(0, -2)], used for the patterns that end in two fixed
    characters anchored at the end of the input. *)
Definition slice_0_m2 (s : string) : string := slice_0_m1 (slice_0_m1 s).

(** Suffix of [s] from index [n]. *)
Fixpoint drop (n : nat) (s : string) : string :=
  match n with
  | O => s
  | S k => match s with
           | EmptyString => EmptyString
           | String _ s' => drop k s'
           end
  end.

Definition upper_char (c : ascii) : ascii :=
  let n := nat_of_ascii c in
  if ((97 <=? n)%nat && (n <=? 122)%nat) then ascii_of_nat (n - 32) else c.

Definition lower_char (c : ascii) : ascii :=
  let n := nat_of_ascii c in
  if ((65 <=? n)%nat && (n <=? 90)%nat) then ascii_of_nat (n + 32) else c.

Fixpoint map_chars (f : ascii -> ascii) (s : string) : string :=
  match s with
  | EmptyString => EmptyString
  | String c s' => String (f c) (map_chars f s')
  end.

(** [s.toUpperCase()] and [s.toLowerCase()] *)
Definition toUpperCase : string -> string := map_chars upper_char.
Definition toLowerCase : string -> string := map_chars lower_char.

(** [s.split("/")]: the pieces between separators, empty ones included. *)
Fixpoint split_slash (s : string) : list string :=
  match s with
  | EmptyString => [EmptyString]
  | String c s' =>
      if Ascii.eqb c "/" then EmptyString :: split_slash s'
      else match split_slash s' with
           | [] => [String c EmptyString]
           | h :: t => String c h :: t
           end
  end.

(** Truthiness of a string: only the empty string is falsy. *)
Definition truthy (s : string) : bool :=
  match s with
  | EmptyString => false
  | String _ _ => true
  end.

(** Truthiness of a value that is a string or [null]. *)
Definition truthy_opt (o : option string) : bool :=
  match o with
  | None => false
  | Some s => truthy s
  end.

(** ** The regular expressions of the source, one function each

    A global [replace] scans left to right and, after a match, resumes
    behind it.  [replace_all matchAt rep] does that for a pattern given by
    [matchAt], which returns the length of the match that starts at the
    head of its argument (every pattern used here matches at least one
    character and has a single possible match at a given position). *)

Section GlobalReplace.
Variable matchAt : string -> option nat.
Variable rep : string.

Fixpoint replace_from (skip : nat) (s : string) : string :=
  match s with
  | EmptyString => EmptyString
  | String c s' =>
      match skip with
      | S k => replace_from k s'
      | O =>
          match matchAt s with
          | Some n => rep ++ replace_from (Nat.pred n) s'
          | None => String c (replace_from O s')
          end
      end
  end.

Definition replace_all (s : string) : string := replace_from O s.
End GlobalReplace.

(** Longest prefix without the character [stop], and what follows it. *)
Fixpoint take_until (stop : ascii) (s : string) : string :=
  match s with
  | EmptyString => EmptyString
  | String c s' =>
      if Ascii.eqb c stop then EmptyString else String c (take_until stop s')
  end.

Fixpoint drop_until (stop : ascii) (s : string) : string :=
  match s with
  | EmptyString => EmptyString
  | String c s' =>
      if Ascii.eqb c stop then s else drop_until stop s'
  end.

(** What follows the leftmost occurrence of [pat] in [s], if any. *)
Fixpoint after_first (pat s : string) : option string :=
  if startsWith s pat then Some (drop (String.length pat) s)
  else match s with
       | EmptyString => None
       | String _ s' => after_first pat s'
       end.

(** [replace(/\\\//g, "/")]: every backslash-slash pair becomes a slash. *)
Fixpoint unescape_slashes (s : string) : string :=
  match s with
  | EmptyString => EmptyString
  | String c s' =>
      if Ascii.eqb c "\" then
        match s' with
        | String d s'' =>
            if Ascii.eqb d "/" then String "/" (unescape_slashes s'')
            else String c (unescape_slashes s')
        | EmptyString => String c EmptyString
        end
      else String c (unescape_slashes s')
  end.

(** [replace(/\/+/g, "/")]: every maximal run of slashes becomes one slash.
    [replace(/\/{2,}/g, "/")] rewrites the runs of two or more and leaves
    a single slash alone, which is the same function. *)
Fixpoint collapse_slashes (s : string) : string :=
  match s with
  | EmptyString => EmptyString
  | String c s' =>
      if Ascii.eqb c "/" then
        if startsWith s' "/" then collapse_slashes s'
        else String "/" (collapse_slashes s')
      else String c (collapse_slashes s')
  end.

(** The dot of a regular expression without the [s] flag matches anything
    but a line terminator. *)
Definition line_terminator (c : ascii) : bool :=
  Ascii.eqb c "010" || Ascii.eqb c "013".

Fixpoint no_line_terminator (s : string) : bool :=
  match s with
  | EmptyString => true
  | String c s' => negb (line_terminator c) && no_line_terminator s'
  end.

(** [replace(/\\\/\?(?:\/|$).*$/, "")]: at the leftmost backslash, slash,
    question mark that is followed either by a slash and then no line
    terminator up to the end, or by the end of the input, cut the rest. *)
Definition end_pattern_here (s : string) : bool :=
  startsWith s "\/?"
  && match drop 3 s with
     | EmptyString => true
     | String c r => Ascii.eqb c "/" && no_line_terminator r
     end.

Fixpoint remove_end_pattern (s : string) : string :=
  if end_pattern_here s then EmptyString
  else match s with
       | EmptyString => EmptyString
       | String c s' => String c (remove_end_pattern s')
       end.

(** Length of the longest prefix without a closing parenthesis. *)
Fixpoint span_no_rparen (s : string) : nat :=
  match s with
  | EmptyString => O
  | String c s' => if Ascii.eqb c ")" then O else S (span_no_rparen s')
  end.

(** [/\(\?:\([^)]+\)\)/]: the four characters that open a non-capturing
    group around a group, one or more characters other than a closing
    parenthesis, two closing parentheses. *)
Definition match_noncapturing (s : string) : option nat :=
  if startsWith s "(?:(" then
    let body := drop 4 s in
    let n := span_no_rparen body in
    if (1 <=? n)%nat && startsWith (drop n body) "))" then Some (4 + n + 2)
    else None
  else None.

(** [/\([^)]*\)/]: an opening parenthesis, any characters other than a
    closing parenthesis, a closing parenthesis. *)
Definition match_group (s : string) : option nat :=
  if startsWith s "(" then
    let body := drop 1 s in
    let n := span_no_rparen body in
    if startsWith (drop n body) ")" then Some (1 + n + 1) else None
  else None.

(** [/\([^)]+\)/]: as above with a non-empty body. *)
Definition match_group1 (s : string) : option nat :=
  if startsWith s "(" then
    let body := drop 1 s in
    let n := span_no_rparen body in
    if (1 <=? n)%nat && startsWith (drop n body) ")" then Some (1 + n + 1)
    else None
  else None.

(** [/[\^$?*+[\]\\{}|]/]: one of the listed metacharacters. *)
Definition regex_special (c : ascii) : bool :=
  existsb (Ascii.eqb c)
    ["^"; "$"; "?"; "*"; "+"; "["; "]"; "\"; "{"; "}"; "|"]%char.

Fixpoint remove_special (s : string) : string :=
  match s with
  | EmptyString => EmptyString
  | String c s' =>
      if regex_special c then remove_special s'
      else String c (remove_special s')
  end.

(** [/\/[gimy]*$/]: a slash followed by flag letters only, up to the end. *)
Definition flag_char (c : ascii) : bool :=
  existsb (Ascii.eqb c) ["g"; "i"; "m"; "y"]%char.

Fixpoint all_flags (s : string) : bool :=
  match s with
  | EmptyString => true
  | String c s' => flag_char c && all_flags s'
  end.

Fixpoint strip_closing_delimiter (s : string) : string :=
  match s with
  | EmptyString => EmptyString
  | String c s' =>
      if Ascii.eqb c "/" && all_flags s' then EmptyString
      else String c (strip_closing_delimiter s')
  end.

(** [replace(/^\/|\/[gimy]*$/g, "")]: a slash at index 0 is removed by the
    first alternative; the scan then goes on behind it for the second. *)
Definition strip_delimiters (s : string) : string :=
  match s with
  | EmptyString => EmptyString
  | String c s' =>
      if Ascii.eqb c "/" then strip_closing_delimiter s'
      else strip_closing_delimiter s
  end.

End Js.

Import Js.

(** ** Data model *)

(** A route path as the tree carries it: a literal string, a [RegExp]
    (by its [toString()] text), or any other value, represented by what
    [routePath?.toString?.()] yields ([None] when the value is nullish or has
    no [toString]). *)
Inductive PathValue : Type :=
| PathString (s : string)
| PathRegExp (regexString : string)
| PathOther (display : option string).

(** An attached handler: only its [name] property is ever inspected
    ([None] when the handler is nullish or its [name] is not a string). *)
Record Middleware : Type := { mw_name : option string }.

(** The argument of the custom protection predicate. *)
Record ProtectionQuery : Type :=
  { q_path : string; q_method : string; q_middlewares : list Middleware }.

(** [protectionMiddlewareName]: declared as a single string; [ManyNames]
    is an array of names passed in its place. *)
Inductive ProtectionName : Type :=
| OneName (name : string)
| ManyNames (names : list string).

(** [RouteInfo] of [types.ts]. *)
Record RouteInfo : Type :=
  { method : string;
    path : string;
    protected : bool;
    middlewares : list Middleware }.

(** ** Pattern decoder ([extract-routes.utils.ts]) *)

(** The pattern of [extractFastPathRoute] is: a caret, a backslash, a slash,
    then a capture of the longest run of characters other than a question
    mark.  [match] returns the leftmost occurrence. *)
Definition extractFastPathRoute (regexString : string) : option string :=
  match after_first "^\/" regexString with
  | Some rest => Some ("/" ++ unescape_slashes (take_until "?" rest))
  | None => None
  end.

Definition extractStandardRoute (regexString : string) : option string :=
  if includes regexString "^\/" || includes regexString "\/?" then
    if includes regexString "\/?(?=\/|$)" then Some "/"
    else
      let p1 := if startsWith regexString "/^" then drop 2 regexString
                else regexString in
      let p2 := remove_end_pattern p1 in
      let p3 := if endsWith p2 "/i" then slice_0_m2 p2 else p2 in
      let p4 := if endsWith p3 "$/" then slice_0_m2 p3 else p3 in
      let p5 := unescape_slashes p4 in
      let p6 := replace_all match_noncapturing "" p5 in
      let p7 := replace_all match_group "" p6 in
      let p8 := collapse_slashes p7 in
      if String.eqb p8 "\/" || String.eqb p8 "" || String.eqb p8 "(?:)"
      then Some "/"
      else
        let p9 := remove_special p8 in
        Some (if startsWith p9 "/" then p9 else "/" ++ p9)
  else None.

Definition extractFallbackRoute (_regexString : string) : string := "/".

(** [a || b] on values that are a string or [null]. *)
Definition or_else (a : option string) (b : string) : string :=
  match a with
  | Some s => if truthy s then s else b
  | None => b
  end.

(** [regexp] is [None] for [null]/[undefined]; a [RegExp] object is truthy. *)
Definition extractBaseRoute (regexp : option string) : string :=
  match regexp with
  | None => "/"
  | Some regexString =>
      or_else (extractFastPathRoute regexString)
        (or_else (extractStandardRoute regexString)
           (extractFallbackRoute regexString))
  end.

(** ** Path combiner *)

Definition normalizeRoutePath (routePath : PathValue) : string :=
  match routePath with
  | PathRegExp regexString =>
      let p := strip_delimiters regexString in
      let p := replace_all match_group1 ":param" (unescape_slashes p) in
      "/" ++ p
  | PathOther display =>
      let pathStr := or_else display "/" in
      if startsWith pathStr "/" then pathStr else "/" ++ pathStr
  | PathString s => s
  end.

(** [routePath === "/"] holds for the string ["/"] only. *)
Definition is_root_string (routePath : PathValue) : bool :=
  match routePath with
  | PathString s => String.eqb s "/"
  | _ => false
  end.

Definition combinePaths (basePath : string) (routePath : PathValue) : string :=
  if String.eqb basePath "/" && is_root_string routePath then "/"
  else
    let normalizedRoutePath := normalizeRoutePath routePath in
    let base :=
      if String.eqb basePath "/" then ""
      else if endsWith basePath "/" then basePath
      else basePath ++ "/" in
    let route :=
      if truthy base && startsWith normalizedRoutePath "/"
      then substring1 normalizedRoutePath
      else normalizedRoutePath in
    let combined := collapse_slashes (base ++ route) in
    let combined :=
      if (1 <? String.length combined)%nat && endsWith combined "/"
      then slice_0_m1 combined
      else combined in
    if truthy combined then combined else "/".

(** ** Node classifier and protection resolver *)

(** One entry of [route.stack]: its [handle] property if it has one, and
    the entry seen as a handler itself. *)
Record StackEntry : Type :=
  { se_handle : option Middleware; se_self : Middleware }.

(** A [route] descriptor: [methods] lists the own keys of the object in
    [Object.keys] order, each with the truthiness of its value. *)
Record Route : Type :=
  { route_path : PathValue;
    route_methods : list (string * bool);
    route_stack : option (list StackEntry) }.

(** A node of the routing tree and the value of its [handle] property.
    [name] is [Some] when the property is a string, [regexp] holds the
    matcher text, [callable] is [typeof handle === "function"], and [stack]
    is the inner node list when the handler exposes one. *)
Inductive Layer : Type :=
| LayerNullish
| LayerObject (route : option Route) (name : option string)
              (handle : option Handle) (regexp : option string)
with Handle : Type :=
| HandleObject (callable : bool) (stack : option (list Layer)).

Definition layer_route (layer : Layer) : option Route :=
  match layer with
  | LayerObject route _ _ _ => route
  | LayerNullish => None
  end.

Definition layer_name (layer : Layer) : option string :=
  match layer with
  | LayerObject _ name _ _ => name
  | LayerNullish => None
  end.

Definition layer_handle (layer : Layer) : option Handle :=
  match layer with
  | LayerObject _ _ handle _ => handle
  | LayerNullish => None
  end.

Definition layer_regexp (layer : Layer) : option string :=
  match layer with
  | LayerObject _ _ _ regexp => regexp
  | LayerNullish => None
  end.

Definition handle_callable (h : Handle) : bool :=
  match h with HandleObject callable _ => callable end.

Definition handle_stack (h : Handle) : option (list Layer) :=
  match h with HandleObject _ stack => stack end.

Definition is_some {A : Type} (o : option A) : bool :=
  match o with Some _ => true | None => false end.

Definition isRouteLayer (layer : Layer) : bool :=
  match layer with
  | LayerNullish => false
  | LayerObject route _ _ _ => is_some route
  end.

Definition isNestedRouter (layer : Layer) : bool :=
  match layer with
  | LayerNullish => false
  | LayerObject _ name handle _ =>
      match name with
      | Some n => String.eqb n "router"
      | None => false
      end
      && match handle with
         | Some h => is_some (handle_stack h)
         | None => false
         end
  end.

Definition isSpecialMiddleware (layer : Layer) : bool :=
  match layer with
  | LayerNullish => false
  | LayerObject _ _ handle regexp =>
      match handle with
      | Some h => handle_callable h
      | None => false
      end
      && is_some regexp
  end.

Definition extractMiddlewares (route : Route) : list Middleware :=
  map (fun s => match se_handle s with
                | Some h => h
                | None => se_self s
                end)
      (match route_stack route with Some l => l | None => [] end).

(** [middleware?.name === protectionMiddlewareName]: strict equality of a
    name with a string compares the strings; with an array it is false. *)
Definition name_strict_eq (mw : Middleware) (supplied : ProtectionName) : bool :=
  match supplied, mw_name mw with
  | OneName s, Some n => String.eqb n s
  | OneName _, None => false
  | ManyNames _, _ => false
  end.

(** Truthiness of the supplied identifier: an empty string is falsy, an
    array never is. *)
Definition name_truthy (supplied : option ProtectionName) : bool :=
  match supplied with
  | None => false
  | Some (OneName s) => truthy s
  | Some (ManyNames _) => true
  end.

Definition determineRouteProtection
    (path : string) (method : string) (middlewares : list Middleware)
    (isProtectedFn : option (ProtectionQuery -> bool))
    (protectionMiddlewareName : option ProtectionName) : bool :=
  match isProtectedFn with
  | Some f =>
      f {| q_path := path;
           q_method := toUpperCase method;
           q_middlewares := middlewares |}
  | None =>
      match protectionMiddlewareName with
      | Some supplied =>
          if name_truthy protectionMiddlewareName
          then existsb (fun mw => name_strict_eq mw supplied) middlewares
          else false
      | None => false
      end
  end.

(** ** Tree walker ([extract-routes.ts]) *)

Section Walker.

Variable isProtectedFn : option (ProtectionQuery -> bool).
Variable protectionMiddlewareName : option ProtectionName.

Definition extractRoutesFromRouteLayer (layer : Layer) (basePath : string)
  : list RouteInfo :=
  match layer_route layer with
  | None => []
  | Some route =>
      let fullPath := combinePaths basePath (route_path route) in
      let methods :=
        map fst (filter (fun kv => snd kv) (route_methods route)) in
      let mws := extractMiddlewares route in
      map (fun m =>
             {| method := toUpperCase m;
                path := fullPath;
                protected :=
                  determineRouteProtection fullPath m mws
                    isProtectedFn protectionMiddlewareName;
                middlewares := mws |})
          methods
  end.

(** [extractRoutesFromRouter] with the callback of its [flatMap]; the
    bodies of the nested-router and special-middleware helpers are
    written in place here and stated as functions of their own below. *)
Fixpoint extractRoutesFromRouter (router : Handle) (baseRoute : string)
  {struct router} : list RouteInfo :=
  match router with
  | HandleObject _ stack =>
      match stack with
      | Some layers =>
          flat_map (fun layer => extractRoutesFromLayer layer baseRoute)
                   layers
      | None => []
      end
  end
with extractRoutesFromLayer (layer : Layer) (baseRoute : string)
  {struct layer} : list RouteInfo :=
  if isRouteLayer layer then extractRoutesFromRouteLayer layer baseRoute
  else if isNestedRouter layer then
    match layer with
    | LayerObject _ _ (Some h) regexp =>
        let subRoutePath :=
          match regexp with
          | Some _ => extractBaseRoute regexp
          | None => "/"
          end in
        let combinedPath := combinePaths baseRoute (PathString subRoutePath) in
        extractRoutesFromRouter h combinedPath
    | _ => []
    end
  else if isSpecialMiddleware layer then
    match layer with
    | LayerObject _ _ (Some h) regexp =>
        let subRoutePath := extractBaseRoute regexp in
        match handle_stack h with
        | Some _ =>
            extractRoutesFromRouter h
              (combinePaths baseRoute (PathString subRoutePath))
        | None => []
        end
    | _ => []
    end
  else [].

(** The two helpers as the source declares them.  Both are only called on
    a layer whose [handle] is present. *)
Definition extractRoutesFromNestedRouter (layer : Layer) (baseRoute : string)
  : list RouteInfo :=
  let subRoutePath :=
    if is_some (layer_regexp layer) then extractBaseRoute (layer_regexp layer)
    else "/" in
  let combinedPath := combinePaths baseRoute (PathString subRoutePath) in
  match layer_handle layer with
  | Some h => extractRoutesFromRouter h combinedPath
  | None => []
  end.

Definition extractRoutesFromSpecialMiddleware (layer : Layer) (baseRoute : string)
  : list RouteInfo :=
  let subRoutePath := extractBaseRoute (layer_regexp layer) in
  match layer_handle layer with
  | Some h =>
      if is_some (handle_stack h)
      then extractRoutesFromRouter h
             (combinePaths baseRoute (PathString subRoutePath))
      else []
  | None => []
  end.

End Walker.

(** ** Filter pipeline and entry point *)

(** [filterDomain]: a token or an array of tokens. *)
Inductive DomainFilter : Type :=
| OneDomain (domain : string)
| ManyDomains (domains : list string).

Definition domain_truthy (d : DomainFilter) : bool :=
  match d with
  | OneDomain s => truthy s
  | ManyDomains _ => true
  end.

Definition domain_matches (route : RouteInfo) (domain : string) : bool :=
  let domainString := toLowerCase domain in
  let normalizedDomain :=
    if startsWith domainString "/" then substring1 domainString
    else domainString in
  let pathSegments := filter truthy (split_slash (toLowerCase (path route))) in
  existsb (String.eqb normalizedDomain) pathSegments.

Definition applyDomainFilter (routes : list RouteInfo) (filterDomain : DomainFilter)
  : list RouteInfo :=
  let domains :=
    match filterDomain with
    | ManyDomains l => l
    | OneDomain s => [s]
    end in
  filter (fun route => existsb (domain_matches route) domains) routes.

(** The five optional filters.  The two custom predicates are functions of
    the record, as [types.ts] declares them. *)
Record RouteFilters : Type :=
  { filterDomain : option DomainFilter;
    pathPrefix : option string;
    showUnprotectedOnly : bool;
    includeFilter : option (RouteInfo -> bool);
    excludeFilter : option (RouteInfo -> bool) }.

Definition filterRoutes (routes : list RouteInfo) (filters : RouteFilters)
  : list RouteInfo :=
  let filteredRoutes := routes in
  let filteredRoutes :=
    match filterDomain filters with
    | Some d => if domain_truthy d then applyDomainFilter filteredRoutes d
                else filteredRoutes
    | None => filteredRoutes
    end in
  let filteredRoutes :=
    match pathPrefix filters with
    | Some prefix =>
        if truthy prefix
        then filter (fun route => startsWith (path route) prefix) filteredRoutes
        else filteredRoutes
    | None => filteredRoutes
    end in
  let filteredRoutes :=
    if showUnprotectedOnly filters
    then filter (fun route => negb (protected route)) filteredRoutes
    else filteredRoutes in
  let filteredRoutes :=
    match includeFilter filters with
    | Some f => filter f filteredRoutes
    | None => filteredRoutes
    end in
  match excludeFilter filters with
  | Some f => filter (fun route => negb (f route)) filteredRoutes
  | None => filteredRoutes
  end.

(** [DisplayRoutesConfig]: the filters plus the two protection options.
    [cfg_showUnprotectedOnly] is [None] when the option is left out. *)
Record DisplayRoutesConfig : Type :=
  { cfg_filterDomain : option DomainFilter;
    cfg_pathPrefix : option string;
    cfg_showUnprotectedOnly : option bool;
    cfg_isProtected : option (ProtectionQuery -> bool);
    cfg_includeFilter : option (RouteInfo -> bool);
    cfg_excludeFilter : option (RouteInfo -> bool);
    cfg_protectionMiddlewareName : option ProtectionName }.

(** The default argument [config = {}]. *)
Definition emptyConfig : DisplayRoutesConfig :=
  {| cfg_filterDomain := None;
     cfg_pathPrefix := None;
     cfg_showUnprotectedOnly := None;
     cfg_isProtected := None;
     cfg_includeFilter := None;
     cfg_excludeFilter := None;
     cfg_protectionMiddlewareName := None |}.

(** The application object: nullish, or an object whose [_router] property
    is a router or is missing. *)
Inductive App : Type :=
| AppNullish
| AppObject (_router : option Handle).

Definition app_router (app : App) : option Handle :=
  match app with
  | AppNullish => None
  | AppObject r => r
  end.

Definition noRouterWarning : string :=
  "No router found in Express app. The app may be empty or not initialized properly.".

(** [extractRoutes] returns the records and the warnings it has written
    with [console.warn], in order. *)
Definition extractRoutes (app : App) (config : DisplayRoutesConfig)
  : list RouteInfo * list string :=
  match app_router app with
  | None => ([], [noRouterWarning])
  | Some router =>
      let extractedRoutes :=
        extractRoutesFromRouter (cfg_isProtected config)
          (cfg_protectionMiddlewareName config) router "/" in
      (filterRoutes extractedRoutes
         {| filterDomain := cfg_filterDomain config;
            pathPrefix := cfg_pathPrefix config;
            showUnprotectedOnly :=
              match cfg_showUnprotectedOnly config with
              | Some b => b
              | None => false
              end;
            includeFilter := cfg_includeFilter config;
            excludeFilter := cfg_excludeFilter config |},
       [])
  end.

(** * Notions used to state the properties *)

(** ** Literal paths and their compiled form *)

(** Modelled from the spec: the compiled matcher form of a literal path, in
    the shape the source documents for its fast path: start delimiter and
    anchor, the path with every slash escaped, the optional trailing
    separator, the lookahead, end delimiter and the [i] flag. *)
Fixpoint escape_slashes (s : string) : string :=
  match s with
  | EmptyString => EmptyString
  | String c s' =>
      if Ascii.eqb c "/" then String "\" (String "/" (escape_slashes s'))
      else String c (escape_slashes s')
  end.

Definition compileLiteral (p : string) : string :=
  "/^" ++ escape_slashes p ++ "\/?(?=\/|$)/i".

(** A path text without question mark and without backslash. *)
Fixpoint literal_text (s : string) : bool :=
  match s with
  | EmptyString => true
  | String c s' =>
      negb (Ascii.eqb c "?") && negb (Ascii.eqb c "\") && literal_text s'
  end.

(** A literal path: a slash followed by literal text. *)
Definition literal_path (p : string) : bool :=
  match p with
  | String c s => Ascii.eqb c "/" && literal_text s
  | EmptyString => false
  end.

(** ** Normal form of a combined path *)

(** The last three steps of [combinePaths], on the concatenation. *)
Definition finish (joined : string) : string :=
  let combined := collapse_slashes joined in
  let combined :=
    if (1 <? String.length combined)%nat && endsWith combined "/"
    then slice_0_m1 combined
    else combined in
  if truthy combined then combined else "/".

(** ** Subsequences and subsets of the filters *)

(** [Subseq l1 l2]: [l1] is [l2] with some elements left out, the others in
    their order. *)
Inductive Subseq {A : Type} : list A -> list A -> Prop :=
| Subseq_nil : Subseq [] []
| Subseq_keep (x : A) (l1 l2 : list A) :
    Subseq l1 l2 -> Subseq (x :: l1) (x :: l2)
| Subseq_drop (x : A) (l1 l2 : list A) :
    Subseq l1 l2 -> Subseq l1 (x :: l2).

(** Which of the five filters to keep when a configuration is cut down to
    a subset of its filters. *)
Record FilterMask : Type :=
  { keep_domain : bool;
    keep_prefix : bool;
    keep_unprotected : bool;
    keep_include : bool;
    keep_exclude : bool }.

Definition restrictFilters (keep : FilterMask) (filters : RouteFilters)
  : RouteFilters :=
  {| filterDomain := if keep_domain keep then filterDomain filters else None;
     pathPrefix := if keep_prefix keep then pathPrefix filters else None;
     showUnprotectedOnly := keep_unprotected keep && showUnprotectedOnly filters;
     includeFilter := if keep_include keep then includeFilter filters else None;
     excludeFilter := if keep_exclude keep then excludeFilter filters else None |}.

(** The test each stage of [filterRoutes] applies to a record; a stage that
    is switched off lets every record through. *)
Definition domain_stage (d : option DomainFilter) (route : RouteInfo) : bool :=
  match d with
  | Some (OneDomain s) =>
      if truthy s then existsb (domain_matches route) [s] else true
  | Some (ManyDomains l) => existsb (domain_matches route) l
  | None => true
  end.

Definition prefix_stage (p : option string) (route : RouteInfo) : bool :=
  match p with
  | Some prefix => if truthy prefix then startsWith (path route) prefix else true
  | None => true
  end.

Definition unprotected_stage (b : bool) (route : RouteInfo) : bool :=
  if b then negb (protected route) else true.

Definition include_stage (f : option (RouteInfo -> bool)) (route : RouteInfo) : bool :=
  match f with
  | Some g => g route
  | None => true
  end.

Definition exclude_stage (f : option (RouteInfo -> bool)) (route : RouteInfo) : bool :=
  match f with
  | Some g => negb (g route)
  | None => true
  end.

(** ** Absolute paths in a tree *)

(** A path fragment is absolute when, being a literal string, it starts
    with a slash. *)
Definition absolute_fragment (routePath : PathValue) : bool :=
  match routePath with
  | PathString s => startsWith s "/"
  | _ => true
  end.

(** Every route descriptor of the tree carries an absolute fragment. *)
Fixpoint fragments_absolute (router : Handle) : bool :=
  match router with
  | HandleObject _ (Some layers) => forallb layer_fragments_absolute layers
  | HandleObject _ None => true
  end
with layer_fragments_absolute (layer : Layer) : bool :=
  match layer with
  | LayerNullish => true
  | LayerObject route _ handle _ =>
      match route with
      | Some r => absolute_fragment (route_path r)
      | None => true
      end
      && match handle with
         | Some h => fragments_absolute h
         | None => true
         end
  end.

Definition app_fragments_absolute (app : App) : bool :=
  match app_router app with
  | Some router => fragments_absolute router
  | None => true
  end.

(** The paths of all the records start with a slash. *)
Definition absolute_paths (routes : list RouteInfo) : Prop :=
  Forall (fun r => startsWith (path r) "/" = true) routes.

(** ** Records decided by a protection predicate *)

(** The protection flag of a record is the predicate's verdict on the
    record's own path, method and middleware list. *)
Definition decided_by (f : ProtectionQuery -> bool) (r : RouteInfo) : Prop :=
  protected r = f {| q_path := path r;
                     q_method := method r;
                     q_middlewares := middlewares r |}.

(** ** Scenario trees *)

(** A mounted router as the framework builds it: kind tag [router], a
    callable handler that exposes a node list, and a matcher. *)
Definition mountedRouter (regexString : string) (layers : list Layer) : Layer :=
  LayerObject None (Some "router")
    (Some (HandleObject true (Some layers))) (Some regexString).

(** The terminal node of the scenario: fragment [/users], methods [get] and
    [post] declared, no handler attached. *)
Definition usersRoute : Route :=
  {| route_path := PathString "/users";
     route_methods := [("get", true); ("post", true)];
     route_stack := Some [] |}.

(** An application whose only node is a router mounted under the matcher
    [regexString], holding the terminal node alone. *)
Definition apiApp (regexString : string) (name : option string)
    (handle : option Handle) (regexp : option string) : App :=
  AppObject (Some (HandleObject true (Some
    [mountedRouter regexString
       [LayerObject (Some usersRoute) name handle regexp]]))).

(** Induction over the routing tree, through the node lists. *)
Section TreeInduction.

Variable P : Layer -> Prop.
Variable Q : Handle -> Prop.
Hypothesis P_nullish : P LayerNullish.
Hypothesis P_leaf : forall route name regexp,
    P (LayerObject route name None regexp).
Hypothesis P_node : forall route name h regexp,
    Q h -> P (LayerObject route name (Some h) regexp).
Hypothesis Q_none : forall callable, Q (HandleObject callable None).
Hypothesis Q_some : forall callable layers,
    Forall P layers -> Q (HandleObject callable (Some layers)).

Fixpoint Layer_tree_ind (layer : Layer) : P layer :=
  match layer with
  | LayerNullish => P_nullish
  | LayerObject route name None regexp => P_leaf route name regexp
  | LayerObject route name (Some h) regexp =>
      P_node route name h regexp (Handle_tree_ind h)
  end
with Handle_tree_ind (h : Handle) : Q h :=
  match h with
  | HandleObject callable None => Q_none callable
  | HandleObject callable (Some layers) =>
      Q_some callable layers
        ((fix all (ls : list Layer) : Forall P ls :=
            match ls with
            | [] => Forall_nil P
            | l :: ls' => Forall_cons l (Layer_tree_ind l) (all ls')
            end) layers)
  end.

End TreeInduction.

(** * Presentation helpers ([print-routes.ts]) *)

(** [extractDomain]: the second non-empty segment of a path whose first
    non-empty segment is [api], and [root] for every other path. *)
Definition extractDomain (path : string) : string :=
  match filter truthy (split_slash path) with
  | first :: second :: _ => if String.eqb first "api" then second else "root"
  | _ => "root"
  end.

(** [formatDomainName]: [domain.charAt(0).toUpperCase() + domain.slice(1)],
    both parts being empty for the empty string. *)
Definition formatDomainName (domain : string) : string :=
  if String.eqb domain "root" then "Root"
  else match domain with
       | EmptyString => EmptyString
       | String c rest => String (upper_char c) rest
       end.

(** * Further notions used to state properties *)

(** A path in normal form: not empty, without two slashes in a row, and
    without a trailing slash unless it is the root path. *)
Definition normalized (s : string) : bool :=
  truthy s && negb (includes s "//")
  && (negb (endsWith s "/") || String.eqb s "/").

(** [under base p]: [p] is [base] or lies below it. *)
Definition under (base p : string) : Prop :=
  p = base \/ startsWith p (base ++ "/") = true.

(** Every character of a string passes a test. *)
Fixpoint all_chars (f : ascii -> bool) (s : string) : bool :=
  match s with
  | EmptyString => true
  | String c s' => f c && all_chars f s'
  end.

(** The ASCII lower-case letters. *)
Definition lower_letter (c : ascii) : bool :=
  let n := nat_of_ascii c in ((97 <=? n)%nat && (n <=? 122)%nat).

(** The conjunction of the tests of all five stages of [filterRoutes]. *)
Definition keeps (filters : RouteFilters) (route : RouteInfo) : bool :=
  domain_stage (filterDomain filters) route
  && prefix_stage (pathPrefix filters) route
  && unprotected_stage (showUnprotectedOnly filters) route
  && include_stage (includeFilter filters) route
  && exclude_stage (excludeFilter filters) route.

(** A handler carries the given name. *)
Definition has_name (name : string) (mw : Middleware) : Prop :=
  mw_name mw = Some name.

(** ** Further scenario trees and configurations *)

(** A route [/private] guarded by the handler [requireAuth], declaring
    [get] and an undeclared [delete], next to a router mounted on [/api]
    that holds the route [/users]. *)
Definition privateRoute : Route :=
  {| route_path := PathString "/private";
     route_methods := [("get", true); ("delete", false)];
     route_stack :=
       Some [{| se_handle := Some {| mw_name := Some "requireAuth" |};
                se_self := {| mw_name := Some "requireAuth" |} |}] |}.

Definition usersRouter : Handle :=
  HandleObject true (Some [LayerObject (Some usersRoute) None None None]).

Definition guardedApp : App :=
  AppObject (Some (HandleObject true (Some
    [LayerObject (Some privateRoute) None None None;
     LayerObject None (Some "router") (Some usersRouter)
       (Some "/^\/api\/?(?=\/|$)/i")]))).

(** The configuration that sets nothing but the given options. *)
Definition optionsConfig (name : option ProtectionName)
    (unprotectedOnly : option bool) (domain : option DomainFilter)
  : DisplayRoutesConfig :=
  {| cfg_filterDomain := domain;
     cfg_pathPrefix := None;
     cfg_showUnprotectedOnly := unprotectedOnly;
     cfg_isProtected := None;
     cfg_includeFilter := None;
     cfg_excludeFilter := None;
     cfg_protectionMiddlewareName := name |}.

(** * Properties *)

(** ** Pattern decoder *)

Section DecoderFacts.

Lemma take_until_escaped (s tail : string) :
  literal_text s = true ->
  take_until "?" (escape_slashes s ++ String "\" (String "/" (String "?" tail)))
  = escape_slashes s ++ "\/".
Proof.
  induction s as [|c s IH]; intro H.
  - reflexivity.
  - cbn [literal_text] in H.
    apply andb_prop in H as [H Hs].
    apply andb_prop in H as [Hq Hb].
    apply negb_true_iff in Hq.
    cbn [escape_slashes].
    destruct (Ascii.eqb_spec c "/") as [->|Hc].
    + cbn. now rewrite IH.
    + cbn [append take_until]. rewrite Hq. now rewrite IH.
Qed.

Lemma unescape_escaped (s : string) :
  literal_text s = true ->
  unescape_slashes (escape_slashes s ++ "\/") = s ++ "/".
Proof.
  induction s as [|c s IH]; intro H.
  - reflexivity.
  - simpl in H.
    apply andb_prop in H as [H Hs].
    apply andb_prop in H as [Hq Hb].
    apply negb_true_iff in Hb.
    cbn [escape_slashes].
    destruct (Ascii.eqb_spec c "/") as [->|Hc].
    + cbn. now rewrite IH.
    + cbn [append unescape_slashes]. rewrite Hb. now rewrite IH.
Qed.

Lemma fast_path_of_literal (s : string) :
  literal_text s = true ->
  extractFastPathRoute (compileLiteral (String "/" s))
  = Some (String "/" (s ++ "/")).
Proof.
  intro H. unfold extractFastPathRoute, compileLiteral.
  cbn [escape_slashes Ascii.eqb Bool.eqb append after_first startsWith
       String.length drop andb].
  rewrite take_until_escaped by assumption.
  now rewrite unescape_escaped.
Qed.

Lemma fast_path_nonempty (rs p : string) :
  extractFastPathRoute rs = Some p -> exists r, p = String "/" r.
Proof.
  unfold extractFastPathRoute.
  destruct (after_first "^\/" rs); intro H; inversion H.
  eexists. reflexivity.
Qed.

Lemma standard_nonempty (rs p : string) :
  extractStandardRoute rs = Some p -> exists r, p = String "/" r.
Proof.
  unfold extractStandardRoute.
  destruct (includes rs "^\/" || includes rs "\/?"); [|discriminate].
  destruct (includes rs "\/?(?=\/|$)").
  { intro H; inversion H. now exists "". }
  match goal with
  | |- context [if ?b then Some "/" else _] => destruct b
  end.
  { intro H; inversion H. now exists "". }
  match goal with
  | |- context [remove_special ?x] => generalize (remove_special x)
  end.
  intros q H. inversion H.
  destruct q as [|c q]; simpl.
  - now exists "".
  - destruct (Ascii.eqb_spec c "/") as [->|Hc]; simpl.
    + now exists q.
    + eexists. reflexivity.
Qed.

Lemma extractBaseRoute_first_match (rs : string) :
  extractBaseRoute (Some rs)
  = match extractFastPathRoute rs with
    | Some p => p
    | None => match extractStandardRoute rs with
              | Some p => p
              | None => "/"
              end
    end.
Proof.
  unfold extractBaseRoute, or_else, extractFallbackRoute.
  destruct (extractFastPathRoute rs) as [p|] eqn:F.
  - destruct (fast_path_nonempty _ _ F) as [r ->]. reflexivity.
  - destruct (extractStandardRoute rs) as [p|] eqn:S.
    + destruct (standard_nonempty _ _ S) as [r ->]. reflexivity.
    + reflexivity.
Qed.

Lemma extractBaseRoute_absolute (regexp : option string) :
  startsWith (extractBaseRoute regexp) "/" = true.
Proof.
  destruct regexp as [rs|]; [|reflexivity].
  rewrite extractBaseRoute_first_match.
  destruct (extractFastPathRoute rs) as [p|] eqn:F.
  - destruct (fast_path_nonempty _ _ F) as [r ->]. reflexivity.
  - destruct (extractStandardRoute rs) as [p|] eqn:S.
    + destruct (standard_nonempty _ _ S) as [r ->]. reflexivity.
    + reflexivity.
Qed.

End DecoderFacts.

(** C1, as stated, fails: on the matcher text of the mount [/api/users] the
    decoder returns [/api/users/], the escaped separator of the optional
    trailing marker being part of what the fast path captures. *)
Lemma decode_compiled_literal_counterexample :
  literal_path "/api/users" = true
  /\ compileLiteral "/api/users" = "/^\/api\/users\/?(?=\/|$)/i"
  /\ extractBaseRoute (Some (compileLiteral "/api/users")) = "/api/users/"
  /\ extractBaseRoute (Some (compileLiteral "/api/users")) <> "/api/users".
Proof.
  repeat split; try reflexivity.
  vm_compute. discriminate.
Qed.

(** C1 (amended): for every literal path [p] (a slash followed by text
    without question mark or backslash), decoding the compiled matcher form
    of [p] returns [p] followed by one slash. *)
Theorem decode_compiled_literal (p : string) :
  literal_path p = true ->
  extractBaseRoute (Some (compileLiteral p)) = p ++ "/".
Proof.
  destruct p as [|c s]; [discriminate|].
  unfold literal_path. intro H.
  apply andb_prop in H as [Hc Hs].
  apply Ascii.eqb_eq in Hc. subst c.
  rewrite extractBaseRoute_first_match.
  now rewrite fast_path_of_literal.
Qed.

Lemma decode_compiled_literal_witness :
  literal_path "/api/users" = true
  /\ extractBaseRoute (Some (compileLiteral "/api/users")) = "/api/users" ++ "/".
Proof.
  split; [reflexivity | apply (decode_compiled_literal "/api/users"); reflexivity].
Defined.

(** C2: [extractBaseRoute] is total, its result always starts with a slash;
    it is the root path for a missing matcher, and otherwise the result of
    the first heuristic that applies, the root path when none does. *)
Theorem extractBaseRoute_total (regexp : option string) :
  startsWith (extractBaseRoute regexp) "/" = true
  /\ extractBaseRoute None = "/"
  /\ (forall regexString,
        extractBaseRoute (Some regexString)
        = match extractFastPathRoute regexString with
          | Some p => p
          | None => match extractStandardRoute regexString with
                    | Some p => p
                    | None => extractFallbackRoute regexString
                    end
          end)
  /\ (forall regexString, extractFallbackRoute regexString = "/").
Proof.
  split; [apply extractBaseRoute_absolute|].
  split; [reflexivity|].
  split; [apply extractBaseRoute_first_match|reflexivity].
Qed.

(** The fallback is reached: a matcher text that neither heuristic
    recognises. *)
Example extractBaseRoute_fallback :
  extractFastPathRoute "/(?:\/\w+)*\/(?:\d+)?/" = None
  /\ extractStandardRoute "/(?:\/\w+)*\/(?:\d+)?/" = None
  /\ extractBaseRoute (Some "/(?:\/\w+)*\/(?:\d+)?/") = "/".
Proof. repeat split. Qed.

(** The matcher of the root mount has an empty literal segment and decodes
    to the root path. *)
Example extractBaseRoute_root_mount :
  extractBaseRoute (Some "/^\/?(?=\/|$)/i") = "/".
Proof. reflexivity. Qed.

(** ** Path combiner *)

Section CombinerFacts.

Lemma startsWith_slash (c : ascii) (s : string) :
  startsWith (String c s) "/" = Ascii.eqb c "/".
Proof. cbn. apply andb_true_r. Qed.

Lemma collapse_head (s : string) :
  startsWith (collapse_slashes s) "/" = startsWith s "/".
Proof.
  induction s as [|c s IH]; [reflexivity|].
  rewrite startsWith_slash. cbn [collapse_slashes].
  destruct (Ascii.eqb c "/") eqn:Hc.
  - destruct (startsWith s "/") eqn:Hs.
    + now rewrite IH.
    + reflexivity.
  - now rewrite startsWith_slash.
Qed.

Lemma collapse_no_double (s : string) :
  includes (collapse_slashes s) "//" = false.
Proof.
  induction s as [|c s IH]; [reflexivity|].
  cbn [collapse_slashes].
  destruct (Ascii.eqb c "/") eqn:Hc.
  - destruct (startsWith s "/") eqn:Hs; [exact IH|].
    cbn [includes]. rewrite IH, orb_false_r.
    cbn [startsWith]. fold (startsWith (collapse_slashes s) "/").
    rewrite collapse_head, Hs. reflexivity.
  - cbn [includes startsWith]. now rewrite Hc, IH.
Qed.

Lemma slice_no_double (s : string) :
  includes s "//" = false -> includes (slice_0_m1 s) "//" = false.
Proof.
  induction s as [|c s IH]; [reflexivity|].
  intro H. cbn [includes] in H. apply orb_false_elim in H as [Hh Ht].
  cbn [slice_0_m1]. destruct s as [|d s]; [reflexivity|].
  cbn [includes]. rewrite (IH Ht), orb_false_r.
  cbn [startsWith] in Hh |- *.
  destruct (Ascii.eqb c "/"); [|reflexivity].
  cbn [andb] in Hh |- *.
  cbn [slice_0_m1]. destruct s as [|e s]; [reflexivity|].
  cbn [startsWith] in Hh |- *. rewrite andb_true_r in *. exact Hh.
Qed.

Lemma endsWith_cons (c d : ascii) (s : string) :
  endsWith (String c (String d s)) "/" = endsWith (String d s) "/".
Proof.
  cbn [endsWith String.eqb]. now destruct (Ascii.eqb c "/").
Qed.

Lemma endsWith_single (c : ascii) :
  endsWith (String c "") "/" = Ascii.eqb c "/".
Proof.
  cbn. now destruct (Ascii.eqb c "/").
Qed.

Lemma slice_drops_trailing_slash (s : string) :
  includes s "//" = false ->
  endsWith s "/" = true ->
  endsWith (slice_0_m1 s) "/" = false.
Proof.
  induction s as [|c s IH]; [reflexivity|].
  intros Hd He. destruct s as [|d s]; [reflexivity|].
  rewrite endsWith_cons in He.
  cbn [includes] in Hd. apply orb_false_elim in Hd as [Hh Ht].
  specialize (IH Ht He).
  cbn [slice_0_m1] in IH |- *.
  destruct s as [|e s].
  - rewrite endsWith_single in He |- *.
    cbn [startsWith] in Hh. rewrite He in Hh.
    now rewrite !andb_true_r in Hh.
  - rewrite endsWith_cons. exact IH.
Qed.

Lemma combinePaths_root : combinePaths "/" (PathString "/") = "/".
Proof. reflexivity. Qed.

Lemma finish_no_double (joined : string) :
  includes (finish joined) "//" = false.
Proof.
  unfold finish.
  pose proof (collapse_no_double joined) as H.
  destruct ((1 <? String.length (collapse_slashes joined))%nat
            && endsWith (collapse_slashes joined) "/").
  - apply slice_no_double in H.
    destruct (slice_0_m1 (collapse_slashes joined)); [reflexivity|exact H].
  - destruct (collapse_slashes joined); [reflexivity|exact H].
Qed.

Lemma finish_no_trailing (joined : string) :
  endsWith (finish joined) "/" = false \/ finish joined = "/".
Proof.
  unfold finish.
  pose proof (collapse_no_double joined) as H.
  destruct (collapse_slashes joined) as [|c s] eqn:E.
  - right. reflexivity.
  - destruct s as [|d s].
    + cbn [String.length Nat.ltb Nat.leb andb truthy].
      rewrite endsWith_single.
      destruct (Ascii.eqb_spec c "/") as [->|Hc]; [now right | now left].
    + cbn [String.length Nat.ltb Nat.leb andb].
      destruct (endsWith (String c (String d s)) "/") eqn:He.
      * left. cbn [slice_0_m1 truthy].
        change (String c (slice_0_m1 (String d s)))
          with (slice_0_m1 (String c (String d s))).
        exact (slice_drops_trailing_slash _ H He).
      * left. exact He.
Qed.

Lemma combinePaths_finish (basePath : string) (routePath : PathValue) :
  combinePaths basePath routePath = "/"
  \/ exists joined, combinePaths basePath routePath = finish joined.
Proof.
  unfold combinePaths.
  destruct (String.eqb basePath "/" && is_root_string routePath).
  - left. reflexivity.
  - right. eexists. reflexivity.
Qed.

End CombinerFacts.

(** C3: [combinePaths("/", "/")] is ["/"]; for all string inputs the result
    has no two consecutive slashes and does not end with a slash unless it
    is exactly ["/"]. *)
Theorem combinePaths_normalized :
  combinePaths "/" (PathString "/") = "/"
  /\ forall base sub : string,
       includes (combinePaths base (PathString sub)) "//" = false
       /\ (endsWith (combinePaths base (PathString sub)) "/" = false
           \/ combinePaths base (PathString sub) = "/").
Proof.
  split; [reflexivity|].
  intros base sub.
  destruct (combinePaths_finish base (PathString sub)) as [->|[j ->]].
  - split; [reflexivity | now right].
  - split; [apply finish_no_double | apply finish_no_trailing].
Qed.

(** ** Filter pipeline *)

Section FilterFacts.

Context {A : Type}.

Lemma filter_all (l : list A) : filter (fun _ => true) l = l.
Proof. induction l as [|x l IH]; simpl; congruence. Qed.

Lemma Subseq_refl (l : list A) : Subseq l l.
Proof. induction l; constructor; assumption. Qed.

Lemma Subseq_filter_mono (p q : A -> bool) (l1 l2 : list A) :
  (forall x, p x = true -> q x = true) ->
  Subseq l1 l2 -> Subseq (filter p l1) (filter q l2).
Proof.
  intros Hpq H. induction H as [|x l1 l2 H IH|x l1 l2 H IH]; simpl.
  - constructor.
  - destruct (p x) eqn:Hp.
    + rewrite (Hpq x Hp). now constructor.
    + destruct (q x); [constructor|]; assumption.
  - destruct (q x); [constructor|]; assumption.
Qed.

Lemma Subseq_filter (p : A -> bool) (l : list A) : Subseq (filter p l) l.
Proof.
  rewrite <- (filter_all l) at 2.
  apply Subseq_filter_mono; [reflexivity | apply Subseq_refl].
Qed.

Lemma Subseq_trans (l1 l2 l3 : list A) :
  Subseq l1 l2 -> Subseq l2 l3 -> Subseq l1 l3.
Proof.
  intros H12 H23. revert l1 H12.
  induction H23 as [|x l2 l3 H IH|x l2 l3 H IH]; intros l1 H12.
  - assumption.
  - inversion H12; subst; constructor; auto.
  - constructor. auto.
Qed.

Lemma Subseq_In (l1 l2 : list A) (x : A) :
  Subseq l1 l2 -> In x l1 -> In x l2.
Proof.
  induction 1 as [|y l1 l2 H IH|y l1 l2 H IH]; simpl; intuition.
Qed.

End FilterFacts.

Lemma filterRoutes_stages (routes : list RouteInfo) (filters : RouteFilters) :
  filterRoutes routes filters
  = filter (exclude_stage (excludeFilter filters))
      (filter (include_stage (includeFilter filters))
         (filter (unprotected_stage (showUnprotectedOnly filters))
            (filter (prefix_stage (pathPrefix filters))
               (filter (domain_stage (filterDomain filters)) routes)))).
Proof.
  destruct filters as [d p u i e]. unfold filterRoutes. cbn [filterDomain
    pathPrefix showUnprotectedOnly includeFilter excludeFilter].
  assert (Hd : match d with
               | Some d0 => if domain_truthy d0 then applyDomainFilter routes d0
                            else routes
               | None => routes
               end = filter (domain_stage d) routes).
  { destruct d as [[s|l]|]; cbn [domain_truthy domain_stage applyDomainFilter].
    - destruct s; [now rewrite filter_all | reflexivity].
    - reflexivity.
    - now rewrite filter_all. }
  rewrite Hd. generalize (filter (domain_stage d) routes) as r1. intro r1.
  assert (Hp : match p with
               | Some prefix =>
                   if truthy prefix
                   then filter (fun route => startsWith (path route) prefix) r1
                   else r1
               | None => r1
               end = filter (prefix_stage p) r1).
  { destruct p as [s|].
    - destruct s; [cbn; now rewrite filter_all | reflexivity].
    - now rewrite filter_all. }
  rewrite Hp. generalize (filter (prefix_stage p) r1) as r2. intro r2.
  assert (Hu : (if u then filter (fun route => negb (protected route)) r2 else r2)
               = filter (unprotected_stage u) r2).
  { destruct u; cbn [unprotected_stage]; [reflexivity | now rewrite filter_all]. }
  rewrite Hu. generalize (filter (unprotected_stage u) r2) as r3. intro r3.
  destruct i as [g|], e as [h|]; cbn [include_stage exclude_stage];
    rewrite ?filter_all; reflexivity.
Qed.

Lemma filterRoutes_Subseq (routes : list RouteInfo) (filters : RouteFilters) :
  Subseq (filterRoutes routes filters) routes.
Proof.
  rewrite filterRoutes_stages.
  repeat (eapply Subseq_trans; [apply Subseq_filter|]).
  apply Subseq_refl.
Qed.

(** C7: the filtered output is a subsequence of the input, and the output
    under all the configured filters is a subsequence of the output under
    any subset of them. *)
Theorem filterRoutes_narrowing (routes : list RouteInfo) (filters : RouteFilters) :
  Subseq (filterRoutes routes filters) routes
  /\ forall keep : FilterMask,
       Subseq (filterRoutes routes filters)
              (filterRoutes routes (restrictFilters keep filters)).
Proof.
  split; [apply filterRoutes_Subseq|].
  intros [kd kp ku ki ke]. rewrite !filterRoutes_stages.
  destruct filters as [d p u i e].
  cbn [restrictFilters filterDomain pathPrefix showUnprotectedOnly
       includeFilter excludeFilter keep_domain keep_prefix keep_unprotected
       keep_include keep_exclude].
  repeat apply Subseq_filter_mono; try apply Subseq_refl.
  - destruct ke; [trivial | reflexivity].
  - destruct ki; [trivial | reflexivity].
  - destruct ku; [trivial | reflexivity].
  - destruct kp; [trivial | reflexivity].
  - destruct kd; [trivial | reflexivity].
Qed.

(** ** Path normalizer and the paths of the records *)

Section PathFacts.

Lemma normalize_regexp_absolute (regexString : string) :
  startsWith (normalizeRoutePath (PathRegExp regexString)) "/" = true.
Proof. reflexivity. Qed.

Lemma normalize_other_absolute (display : option string) :
  startsWith (normalizeRoutePath (PathOther display)) "/" = true.
Proof.
  cbn [normalizeRoutePath].
  destruct (startsWith (or_else display "/") "/") eqn:E.
  - exact E.
  - reflexivity.
Qed.

Lemma normalize_absolute (routePath : PathValue) :
  absolute_fragment routePath = true ->
  startsWith (normalizeRoutePath routePath) "/" = true.
Proof.
  destruct routePath as [s|rs|d]; intro H.
  - exact H.
  - apply normalize_regexp_absolute.
  - apply normalize_other_absolute.
Qed.

Lemma finish_absolute (joined : string) :
  startsWith joined "/" = true -> startsWith (finish joined) "/" = true.
Proof.
  intro H. rewrite <- collapse_head in H. unfold finish.
  destruct (collapse_slashes joined) as [|c s]; [discriminate|].
  rewrite startsWith_slash in H.
  destruct s as [|d s].
  - cbn [String.length Nat.ltb Nat.leb andb truthy].
    now rewrite startsWith_slash.
  - destruct ((1 <? String.length (String c (String d s)))%nat
              && endsWith (String c (String d s)) "/").
    + cbn [slice_0_m1 truthy]. now rewrite startsWith_slash.
    + cbn [truthy]. now rewrite startsWith_slash.
Qed.

Lemma startsWith_app (a b : string) :
  startsWith a "/" = true -> startsWith (a ++ b) "/" = true.
Proof. destruct a; [discriminate | exact (fun H => H)]. Qed.

Lemma combinePaths_absolute (basePath : string) (routePath : PathValue) :
  startsWith basePath "/" = true ->
  (basePath = "/" -> startsWith (normalizeRoutePath routePath) "/" = true) ->
  startsWith (combinePaths basePath routePath) "/" = true.
Proof.
  intros Hb Hr. unfold combinePaths.
  destruct (String.eqb basePath "/" && is_root_string routePath);
    [reflexivity|].
  apply finish_absolute.
  destruct (String.eqb_spec basePath "/") as [E|E].
  - cbn [truthy andb append]. auto.
  - apply startsWith_app.
    destruct (endsWith basePath "/"); [exact Hb | now apply startsWith_app].
Qed.

Variable isProtectedFn : option (ProtectionQuery -> bool).
Variable protectionMiddlewareName : option ProtectionName.

Lemma route_layer_absolute (layer : Layer) (basePath : string) :
  startsWith basePath "/" = true ->
  layer_fragments_absolute layer = true ->
  absolute_paths
    (extractRoutesFromRouteLayer isProtectedFn protectionMiddlewareName
       layer basePath).
Proof.
  intros Hb Hl. unfold extractRoutesFromRouteLayer, absolute_paths.
  destruct layer as [|[r|] n h rx]; cbn [layer_route]; try constructor.
  cbn [layer_fragments_absolute] in Hl. apply andb_prop in Hl as [Hr _].
  apply Forall_forall. intros x Hx. apply in_map_iff in Hx as [m [<- _]].
  cbn [path]. apply combinePaths_absolute; [exact Hb|].
  intros _. now apply normalize_absolute.
Qed.

Lemma mount_absolute (baseRoute : string) (regexp : option string) :
  startsWith baseRoute "/" = true ->
  startsWith (combinePaths baseRoute (PathString (extractBaseRoute regexp))) "/"
  = true.
Proof.
  intro Hb. apply combinePaths_absolute; [exact Hb|].
  intros _. apply extractBaseRoute_absolute.
Qed.

Lemma walker_absolute :
  forall router baseRoute,
    startsWith baseRoute "/" = true ->
    fragments_absolute router = true ->
    absolute_paths
      (extractRoutesFromRouter isProtectedFn protectionMiddlewareName
         router baseRoute).
Proof.
  intro router.
  induction router using Handle_tree_ind
    with (P := fun layer =>
                 forall baseRoute,
                   startsWith baseRoute "/" = true ->
                   layer_fragments_absolute layer = true ->
                   absolute_paths
                     (extractRoutesFromLayer isProtectedFn
                        protectionMiddlewareName layer baseRoute)).
  - intros b _ _. constructor.
  - intros b Hb Hl. cbn [extractRoutesFromLayer].
    destruct (isRouteLayer (LayerObject route name None regexp)).
    + now apply route_layer_absolute.
    + destruct (isNestedRouter _); [constructor|].
      destruct (isSpecialMiddleware _); constructor.
  - intros b Hb Hl. cbn [extractRoutesFromLayer].
    destruct (isRouteLayer (LayerObject route name (Some router) regexp)).
    + now apply route_layer_absolute.
    + cbn [layer_fragments_absolute] in Hl. apply andb_prop in Hl as [_ Hh].
      destruct (isNestedRouter _).
      * apply IHrouter; [|exact Hh].
        destruct regexp as [rs|].
        -- now apply mount_absolute.
        -- exact (mount_absolute b None Hb).
      * destruct (isSpecialMiddleware _); [|constructor].
        destruct (handle_stack router); [|constructor].
        apply IHrouter; [|exact Hh]. now apply mount_absolute.
  - intros b _ _. constructor.
  - intros b Hb Hl. cbn [extractRoutesFromRouter fragments_absolute] in *.
    unfold absolute_paths. apply Forall_flat_map.
    rewrite forallb_forall in Hl. rewrite Forall_forall in H |- *.
    intros l Hin. apply H; auto.
Qed.

End PathFacts.

(** C4, as stated, fails: a literal string is returned unchanged, also when
    it does not start with a slash, and a top-level route with such a
    fragment yields a record whose path does not start with a slash. *)
Lemma normalizeRoutePath_counterexample :
  normalizeRoutePath (PathString "users") = "users"
  /\ startsWith (normalizeRoutePath (PathString "users")) "/" = false
  /\ map path
       (fst (extractRoutes
               (AppObject (Some (HandleObject true (Some
                  [LayerObject
                     (Some {| route_path := PathString "users";
                              route_methods := [("get", true)];
                              route_stack := None |})
                     None None None]))))
               emptyConfig))
     = ["users"].
Proof. repeat split. Qed.

(** C4 (amended): for a [RegExp] and for any other non-string value
    [normalizeRoutePath] returns a string starting with a slash; a literal
    string is returned unchanged.  Consequently, when every literal path
    fragment of the tree starts with a slash, every record's path does. *)
Theorem normalizeRoutePath_absolute :
  (forall regexString,
      startsWith (normalizeRoutePath (PathRegExp regexString)) "/" = true)
  /\ (forall display,
         startsWith (normalizeRoutePath (PathOther display)) "/" = true)
  /\ (forall s, normalizeRoutePath (PathString s) = s)
  /\ (forall app config,
         app_fragments_absolute app = true ->
         Forall (fun r => startsWith (path r) "/" = true)
                (fst (extractRoutes app config))).
Proof.
  split; [exact normalize_regexp_absolute|].
  split; [exact normalize_other_absolute|].
  split; [reflexivity|].
  intros app config H. unfold extractRoutes, app_fragments_absolute in *.
  destruct (app_router app) as [router|]; cbn [fst]; [|constructor].
  apply Forall_forall. intros r Hr.
  apply (Subseq_In _ _ _ (filterRoutes_Subseq _ _)) in Hr.
  pose proof (walker_absolute (cfg_isProtected config)
                (cfg_protectionMiddlewareName config) router "/"
                eq_refl H) as Hall.
  unfold absolute_paths in Hall. rewrite Forall_forall in Hall. auto.
Qed.

Lemma normalizeRoutePath_absolute_witness :
  app_fragments_absolute
    (AppObject (Some (HandleObject true (Some
       [LayerObject
          (Some {| route_path := PathString "/health";
                   route_methods := [("get", true)];
                   route_stack := None |})
          None None None])))) = true
  /\ Forall (fun r => startsWith (path r) "/" = true)
       (fst (extractRoutes
               (AppObject (Some (HandleObject true (Some
                  [LayerObject
                     (Some {| route_path := PathString "/health";
                              route_methods := [("get", true)];
                              route_stack := None |})
                     None None None]))))
               emptyConfig)).
Proof.
  split; [reflexivity|].
  apply (proj2 (proj2 (proj2 normalizeRoutePath_absolute))). reflexivity.
Defined.

(** ** Protection resolver *)

Lemma walker_decided_by_predicate
    (f : ProtectionQuery -> bool) (names : option ProtectionName) :
  forall router baseRoute,
    Forall (decided_by f) (extractRoutesFromRouter (Some f) names router baseRoute).
Proof.
  assert (R : forall layer b,
             Forall (decided_by f)
               (extractRoutesFromRouteLayer (Some f) names layer b)).
  { intros layer b. unfold extractRoutesFromRouteLayer.
    destruct (layer_route layer) as [route|]; [|constructor].
    apply Forall_forall. intros r Hr.
    apply in_map_iff in Hr as [m [<- _]]. reflexivity. }
  intro router.
  induction router using Handle_tree_ind
    with (P := fun layer =>
                 forall baseRoute,
                   Forall (decided_by f)
                     (extractRoutesFromLayer (Some f) names layer baseRoute)).
  - intro b. constructor.
  - intro b. cbn [extractRoutesFromLayer].
    destruct (isRouteLayer _); [apply R|].
    destruct (isNestedRouter _); [constructor|].
    destruct (isSpecialMiddleware _); constructor.
  - intro b. cbn [extractRoutesFromLayer].
    destruct (isRouteLayer _); [apply R|].
    destruct (isNestedRouter _); [apply IHrouter|].
    destruct (isSpecialMiddleware _); [|constructor].
    destruct (handle_stack router); [apply IHrouter | constructor].
  - intro b. constructor.
  - intro b. cbn [extractRoutesFromRouter].
    apply Forall_flat_map. rewrite Forall_forall in H |- *.
    intros l Hin. now apply H.
Qed.

(** C5: when a custom predicate is supplied, the result is the predicate's
    result on the path, the upper-cased method and the middleware list,
    whatever middleware names are supplied; so is the protection flag of
    every record the walker emits. *)
Theorem determineRouteProtection_predicate_wins
    (path method : string) (middlewares : list Middleware)
    (isProtectedFn : ProtectionQuery -> bool)
    (protectionMiddlewareName : option ProtectionName) :
  determineRouteProtection path method middlewares
    (Some isProtectedFn) protectionMiddlewareName
  = isProtectedFn {| q_path := path;
                     q_method := toUpperCase method;
                     q_middlewares := middlewares |}
  /\ forall router baseRoute,
       Forall (decided_by isProtectedFn)
         (extractRoutesFromRouter (Some isProtectedFn)
            protectionMiddlewareName router baseRoute).
Proof.
  split.
  - reflexivity.
  - apply walker_decided_by_predicate.
Qed.

Example toUpperCase_get : toUpperCase "get" = "GET".
Proof. reflexivity. Qed.

(** With a single non-empty name and no predicate, a route is protected
    exactly when some attached middleware has that name. *)
Lemma determineRouteProtection_one_name
    (path method name : string) (middlewares : list Middleware) :
  name <> "" ->
  (determineRouteProtection path method middlewares None (Some (OneName name))
   = true
   <-> exists mw, In mw middlewares /\ mw_name mw = Some name).
Proof.
  intro Hn. unfold determineRouteProtection.
  destruct name as [|c name]; [contradiction|]. cbn [name_truthy truthy].
  rewrite existsb_exists. split.
  - intros [mw [Hin Heq]]. exists mw. split; [exact Hin|].
    unfold name_strict_eq in Heq. destruct (mw_name mw) as [n|]; [|discriminate].
    apply String.eqb_eq in Heq. now subst.
  - intros [mw [Hin Heq]]. exists mw. split; [exact Hin|].
    unfold name_strict_eq. rewrite Heq. apply String.eqb_refl.
Qed.

(** With an array of names the comparison is between a name and the array
    itself, so no route is ever protected. *)
Lemma determineRouteProtection_many_names
    (path method : string) (middlewares : list Middleware) (names : list string) :
  determineRouteProtection path method middlewares None (Some (ManyNames names))
  = false.
Proof.
  unfold determineRouteProtection. cbn [name_truthy].
  induction middlewares as [|mw l IH]; [reflexivity|].
  cbn [existsb name_strict_eq]. exact IH.
Qed.




(** The same through the entry point, on four GET routes: with no handler
    but the final one, with [authMiddleware], with [adminMiddleware], with
    both.  With the list of the two names as option, discovery reports all
    four unprotected. *)
Example extractRoutes_name_list :
  let handler (name : string) : StackEntry :=
    {| se_handle := Some {| mw_name := Some name |};
       se_self := {| mw_name := Some (if truthy name then name
                                      else "<anonymous>") |} |} in
  let get (fragment : string) (names : list string) : Layer :=
    LayerObject
      (Some {| route_path := PathString fragment;
               route_methods := [("get", true)];
               route_stack := Some (map handler (names ++ [""])) |})
      (Some "bound dispatch") (Some (HandleObject true None))
      (Some (compileLiteral fragment)) in
  map (fun r => (path r, protected r))
    (fst (extractRoutes
            (AppObject (Some (HandleObject true (Some
               [get "/public" [];
                get "/auth-only" ["authMiddleware"];
                get "/admin-only" ["adminMiddleware"];
                get "/both" ["authMiddleware"; "adminMiddleware"]]))))
            {| cfg_filterDomain := None;
               cfg_pathPrefix := None;
               cfg_showUnprotectedOnly := None;
               cfg_isProtected := None;
               cfg_includeFilter := None;
               cfg_excludeFilter := None;
               cfg_protectionMiddlewareName :=
                 Some (ManyNames ["authMiddleware"; "adminMiddleware"]) |}))
  = [("/public", false); ("/auth-only", false);
     ("/admin-only", false); ("/both", false)].
Proof. reflexivity. Qed.

(** ** Entry point on an empty tree *)

(** C8, as stated, fails: a router whose node list is empty gives the empty
    record list without any warning. *)
Lemma extractRoutes_empty_stack_counterexample :
  extractRoutes (AppObject (Some (HandleObject true (Some [])))) emptyConfig
  = ([], [])
  /\ List.length
       (snd (extractRoutes (AppObject (Some (HandleObject true (Some []))))
               emptyConfig)) <> 1.
Proof. split; [reflexivity | discriminate]. Qed.

Lemma filterRoutes_nil (filters : RouteFilters) : filterRoutes [] filters = [].
Proof.
  pose proof (filterRoutes_Subseq [] filters) as H.
  inversion H. reflexivity.
Qed.

(** C8 (amended): when the application has no router ([app] nullish or
    [_router] missing) discovery returns no record and emits exactly one
    warning; when the router is there and its node list is empty or missing,
    discovery returns no record and emits no warning.  Neither case raises. *)
Theorem extractRoutes_empty (config : DisplayRoutesConfig) :
  extractRoutes AppNullish config = ([], [noRouterWarning])
  /\ extractRoutes (AppObject None) config = ([], [noRouterWarning])
  /\ (forall callable,
         extractRoutes (AppObject (Some (HandleObject callable (Some [])))) config
         = ([], []))
  /\ (forall callable,
         extractRoutes (AppObject (Some (HandleObject callable None))) config
         = ([], [])).
Proof.
  repeat split; intros; unfold extractRoutes; cbn [app_router];
    cbn [extractRoutesFromRouter flat_map]; now rewrite filterRoutes_nil.
Qed.

(** ** Node classifier *)

(** C9, as stated, fails: a mounted router satisfies both [isNestedRouter]
    and [isSpecialMiddleware], and a node that also has a route descriptor
    satisfies all three predicates. *)
Lemma classifier_overlap_counterexample :
  isRouteLayer (mountedRouter "/^\/api\/?(?=\/|$)/i" []) = false
  /\ isNestedRouter (mountedRouter "/^\/api\/?(?=\/|$)/i" []) = true
  /\ isSpecialMiddleware (mountedRouter "/^\/api\/?(?=\/|$)/i" []) = true
  /\ (let layer :=
        LayerObject
          (Some {| route_path := PathString "/";
                   route_methods := [];
                   route_stack := None |})
          (Some "router") (Some (HandleObject true (Some [])))
          (Some "/^\/?(?=\/|$)/i") in
      isRouteLayer layer && isNestedRouter layer && isSpecialMiddleware layer
      = true).
Proof. repeat split. Qed.

(** C9 (amended): the predicates may hold together; the walker tests them
    in the order [isRouteLayer], [isNestedRouter], [isSpecialMiddleware] and
    handles a node by the first that holds, skipping it when none does; and
    for a node that satisfies both [isNestedRouter] and [isSpecialMiddleware]
    the two handlers return the same records. *)
Theorem classifier_dispatch
    (isProtectedFn : option (ProtectionQuery -> bool))
    (protectionMiddlewareName : option ProtectionName)
    (layer : Layer) (baseRoute : string) :
  extractRoutesFromLayer isProtectedFn protectionMiddlewareName layer baseRoute
  = (if isRouteLayer layer then
       extractRoutesFromRouteLayer isProtectedFn protectionMiddlewareName
         layer baseRoute
     else if isNestedRouter layer then
       extractRoutesFromNestedRouter isProtectedFn protectionMiddlewareName
         layer baseRoute
     else if isSpecialMiddleware layer then
       extractRoutesFromSpecialMiddleware isProtectedFn protectionMiddlewareName
         layer baseRoute
     else [])
  /\ (isNestedRouter layer = true ->
      isSpecialMiddleware layer = true ->
      extractRoutesFromNestedRouter isProtectedFn protectionMiddlewareName
        layer baseRoute
      = extractRoutesFromSpecialMiddleware isProtectedFn protectionMiddlewareName
          layer baseRoute).
Proof.
  split.
  - destruct layer as [|route name [h|] regexp]; [reflexivity| |].
    + cbn [extractRoutesFromLayer].
      destruct (isRouteLayer _); [reflexivity|].
      destruct (isNestedRouter _) eqn:N.
      * unfold extractRoutesFromNestedRouter. cbn [layer_regexp layer_handle].
        destruct regexp; reflexivity.
      * destruct (isSpecialMiddleware _); [|reflexivity].
        unfold extractRoutesFromSpecialMiddleware.
        cbn [layer_regexp layer_handle].
        destruct (handle_stack h); reflexivity.
    + cbn [extractRoutesFromLayer].
      destruct (isRouteLayer _); [reflexivity|].
      destruct (isNestedRouter _); [reflexivity|].
      destruct (isSpecialMiddleware _); reflexivity.
  - intros N S.
    destruct layer as [|route name [h|] regexp]; try discriminate.
    unfold extractRoutesFromNestedRouter, extractRoutesFromSpecialMiddleware.
    cbn [layer_regexp layer_handle].
    cbn [isNestedRouter] in N. apply andb_prop in N as [_ N].
    cbn [isSpecialMiddleware] in S. apply andb_prop in S as [_ S].
    rewrite N. destruct regexp; [reflexivity | discriminate].
Qed.

Lemma classifier_dispatch_witness :
  isNestedRouter (mountedRouter "/^\/api\/?(?=\/|$)/i" []) = true
  /\ isSpecialMiddleware (mountedRouter "/^\/api\/?(?=\/|$)/i" []) = true
  /\ extractRoutesFromNestedRouter None None
       (mountedRouter "/^\/api\/?(?=\/|$)/i" []) "/"
     = extractRoutesFromSpecialMiddleware None None
         (mountedRouter "/^\/api\/?(?=\/|$)/i" []) "/".
Proof.
  split; [reflexivity|]. split; [reflexivity|].
  apply (proj2 (classifier_dispatch None None
                  (mountedRouter "/^\/api\/?(?=\/|$)/i" []) "/"));
    reflexivity.
Defined.

(** ** End-to-end scenario *)

(** C10: a sub-router whose matcher decodes to [/api], holding one terminal
    node [/users] with methods GET and POST and no middleware, yields exactly
    the records GET [/api/users] and POST [/api/users], both unprotected,
    with the same path and the same empty middleware list. *)
Theorem discovery_api_users
    (regexString : string) (name : option string) (handle : option Handle)
    (regexp : option string) :
  extractBaseRoute (Some regexString) = "/api" ->
  extractRoutes (apiApp regexString name handle regexp) emptyConfig
  = ([ {| method := "GET"; path := "/api/users";
          protected := false; middlewares := [] |};
       {| method := "POST"; path := "/api/users";
          protected := false; middlewares := [] |} ],
     []).
Proof.
  intro H. unfold extractRoutes, apiApp, mountedRouter.
  cbn [app_router cfg_isProtected cfg_protectionMiddlewareName emptyConfig
       extractRoutesFromRouter flat_map extractRoutesFromLayer isRouteLayer
       is_some isNestedRouter handle_stack String.eqb Ascii.eqb Bool.eqb andb].
  rewrite H. reflexivity.
Qed.

Lemma discovery_api_users_witness :
  extractBaseRoute (Some "/^\/api?(?=\/|$)/i") = "/api"
  /\ extractRoutes
       (apiApp "/^\/api?(?=\/|$)/i" (Some "bound dispatch")
          (Some (HandleObject true None)) (Some "/^\/users\/?$/i"))
       emptyConfig
     = ([ {| method := "GET"; path := "/api/users";
             protected := false; middlewares := [] |};
          {| method := "POST"; path := "/api/users";
             protected := false; middlewares := [] |} ],
        []).
Proof.
  split; [reflexivity|].
  apply (discovery_api_users "/^\/api?(?=\/|$)/i"). reflexivity.
Defined.

(** The same records come out for the matcher the framework compiles for
    the mount [/api], which decodes to [/api/]: the combiner strips the
    trailing slash. *)
Example discovery_api_users_compiled :
  extractBaseRoute (Some (compileLiteral "/api")) = "/api/"
  /\ map (fun r => (method r, path r, protected r))
       (fst (extractRoutes
               (apiApp (compileLiteral "/api") None None None) emptyConfig))
     = [("GET", "/api/users", false); ("POST", "/api/users", false)].
Proof. split; reflexivity. Qed.

(** * Further properties *)

(** ** Path combiner: normal form and identities *)

Section CombinerAlgebra.

Lemma append_assoc (a b c : string) : (a ++ b) ++ c = a ++ (b ++ c).
Proof. induction a as [|x a IH]; cbn; congruence. Qed.

Lemma append_empty_r (a : string) : a ++ "" = a.
Proof. induction a as [|x a IH]; cbn; congruence. Qed.

Lemma truthy_app_l (a b : string) : truthy a = true -> truthy (a ++ b) = true.
Proof. destruct a; [discriminate | reflexivity]. Qed.

Lemma collapse_truthy (s : string) : truthy (collapse_slashes s) = truthy s.
Proof.
  induction s as [|c s IH]; [reflexivity|].
  cbn [collapse_slashes]. destruct (Ascii.eqb c "/"); [|reflexivity].
  destruct (startsWith s "/") eqn:Hs; [|reflexivity].
  rewrite IH. destruct s; [discriminate | reflexivity].
Qed.

Lemma collapse_id (s : string) :
  includes s "//" = false -> collapse_slashes s = s.
Proof.
  induction s as [|c s IH]; [reflexivity|].
  intro H. cbn [includes] in H. apply orb_false_elim in H as [Hh Ht].
  cbn [collapse_slashes]. rewrite (IH Ht).
  destruct (Ascii.eqb c "/") eqn:Hc; [|reflexivity].
  cbn [startsWith] in Hh. rewrite Hc in Hh. cbn [andb] in Hh.
  apply Ascii.eqb_eq in Hc. subst c. destruct s as [|d s]; [reflexivity|].
  rewrite startsWith_slash. rewrite andb_true_r in Hh. now rewrite Hh.
Qed.

Lemma collapse_cons (c : ascii) (s : string) :
  collapse_slashes (String c s)
  = if Ascii.eqb c "/" then
      if startsWith s "/" then collapse_slashes s
      else String "/" (collapse_slashes s)
    else String c (collapse_slashes s).
Proof. reflexivity. Qed.

Lemma endsWith_collapse (s : string) :
  endsWith (collapse_slashes s) "/" = endsWith s "/".
Proof.
  induction s as [|c s IH]; [reflexivity|].
  rewrite collapse_cons. destruct s as [|d s].
  - cbn [collapse_slashes startsWith].
    destruct (Ascii.eqb_spec c "/") as [->|N]; reflexivity.
  - pose proof (collapse_truthy (String d s)) as T.
    rewrite endsWith_cons.
    remember (collapse_slashes (String d s)) as t eqn:Et.
    destruct t as [|e t]; [discriminate T|].
    destruct (Ascii.eqb c "/"); [destruct (startsWith (String d s) "/")|];
      rewrite ?endsWith_cons; exact IH.
Qed.

Lemma endsWith_snoc (s : string) : endsWith (s ++ "/") "/" = true.
Proof.
  induction s as [|c s IH]; [reflexivity|].
  destruct s as [|d s].
  - cbn. now destruct (Ascii.eqb c "/").
  - change (String c (String d s) ++ "/") with (String c (String d (s ++ "/"))).
    rewrite endsWith_cons. exact IH.
Qed.

Lemma slice_snoc (s : string) : slice_0_m1 (s ++ "/") = s.
Proof.
  induction s as [|c s IH]; [reflexivity|].
  cbn [append slice_0_m1]. destruct s as [|d s]; [reflexivity|].
  cbn [append] in IH |- *. now rewrite IH.
Qed.

Lemma length_snoc (s : string) :
  String.length (s ++ "/") = S (String.length s).
Proof. induction s as [|c s IH]; cbn; congruence. Qed.

Lemma collapse_snoc (s : string) :
  collapse_slashes (s ++ "/")
  = if endsWith s "/" then collapse_slashes s else collapse_slashes s ++ "/".
Proof.
  induction s as [|c s IH]; [reflexivity|].
  change (String c s ++ "/") with (String c (s ++ "/")).
  rewrite !collapse_cons, IH.
  destruct s as [|d s].
  - rewrite endsWith_single. destruct (Ascii.eqb c "/"); reflexivity.
  - rewrite endsWith_cons.
    change (String d s ++ "/") with (String d (s ++ "/")).
    rewrite !startsWith_slash.
    destruct (Ascii.eqb c "/"), (Ascii.eqb d "/"),
      (endsWith (String d s) "/"); reflexivity.
Qed.

Lemma finish_snoc (s : string) : finish (s ++ "/") = finish s.
Proof.
  unfold finish. rewrite collapse_snoc.
  destruct (endsWith s "/") eqn:E; [reflexivity|].
  rewrite <- endsWith_collapse in E.
  destruct (collapse_slashes s) as [|c t] eqn:C; [reflexivity|].
  rewrite endsWith_snoc, length_snoc, slice_snoc, E.
  cbn [String.length Nat.ltb Nat.leb andb truthy].
  now rewrite andb_false_r.
Qed.

Lemma finish_normalized (joined : string) : normalized (finish joined) = true.
Proof.
  unfold normalized. rewrite finish_no_double. cbn [negb].
  assert (T : truthy (finish joined) = true).
  { unfold finish.
    match goal with |- truthy (if truthy ?x then _ else _) = true =>
      destruct x eqn:E end; reflexivity. }
  rewrite T. cbn [andb].
  destruct (finish_no_trailing joined) as [H|H].
  - now rewrite H.
  - rewrite H. reflexivity.
Qed.

Lemma normalized_inv (s : string) :
  normalized s = true ->
  truthy s = true /\ includes s "//" = false
  /\ (s = "/" \/ (s <> "/" /\ endsWith s "/" = false)).
Proof.
  unfold normalized. intro H.
  apply andb_prop in H as [H Ht]. apply andb_prop in H as [Hn Hd].
  apply negb_true_iff in Hd. repeat split; try assumption.
  destruct (String.eqb_spec s "/") as [E|E]; [now left|right].
  split; [exact E|]. rewrite orb_false_r in Ht. now apply negb_true_iff in Ht.
Qed.

Lemma finish_id (s : string) : normalized s = true -> finish s = s.
Proof.
  intro H. apply normalized_inv in H as [Ht [Hd He]].
  unfold finish. rewrite (collapse_id _ Hd).
  destruct He as [->|[_ He]]; [reflexivity|].
  rewrite He, andb_false_r. now rewrite Ht.
Qed.

Lemma combinePaths_is_normalized (basePath : string) (routePath : PathValue) :
  normalized (combinePaths basePath routePath) = true.
Proof.
  destruct (combinePaths_finish basePath routePath) as [->|[j ->]].
  - reflexivity.
  - apply finish_normalized.
Qed.

Lemma combinePaths_string_unfold (b s : string) :
  combinePaths b (PathString s)
  = if String.eqb b "/" && String.eqb s "/" then "/"
    else finish
           ((if String.eqb b "/" then ""
             else if endsWith b "/" then b else b ++ "/")
            ++ (if truthy (if String.eqb b "/" then ""
                           else if endsWith b "/" then b else b ++ "/")
                   && startsWith s "/"
                then substring1 s else s)).
Proof. reflexivity. Qed.

Lemma combine_root_left (s : string) :
  normalized s = true -> combinePaths "/" (PathString s) = s.
Proof.
  intro H. rewrite combinePaths_string_unfold. cbn [String.eqb Ascii.eqb Bool.eqb
    andb truthy append].
  destruct (String.eqb_spec s "/") as [->|E]; [reflexivity|].
  now apply finish_id.
Qed.

Lemma combine_root_right (s : string) :
  normalized s = true -> combinePaths s (PathString "/") = s.
Proof.
  intro H. rewrite combinePaths_string_unfold.
  destruct (String.eqb_spec s "/") as [->|E]; [reflexivity|].
  cbn [andb].
  pose proof (normalized_inv _ H) as [Ht [Hd [He|[_ He]]]]; [contradiction|].
  rewrite He. rewrite (truthy_app_l _ _ Ht).
  cbn [startsWith Ascii.eqb Bool.eqb andb substring1].
  rewrite append_empty_r, finish_snoc. now apply finish_id.
Qed.

Lemma combine_trailing_slash (b s : string) :
  combinePaths b (PathString (s ++ "/")) = combinePaths b (PathString s).
Proof.
  rewrite !combinePaths_string_unfold.
  destruct (String.eqb b "/") eqn:B.
  - cbn [andb truthy append].
    destruct s as [|c s]; [reflexivity|].
    destruct (String.eqb_spec (String c s) "/") as [E|E].
    + rewrite E. reflexivity.
    + assert (N : String.eqb (String c s ++ "/") "/" = false).
      { apply String.eqb_neq. destruct s; cbn; [|discriminate].
        intro X. inversion X. }
      rewrite N. apply finish_snoc.
  - cbn [andb].
    set (base := if endsWith b "/" then b else b ++ "/").
    assert (T : truthy base = true).
    { unfold base. destruct (endsWith b "/") eqn:E.
      - destruct b; [discriminate | reflexivity].
      - destruct b; reflexivity. }
    rewrite T. cbn [andb].
    destruct s as [|c s].
    + cbn. reflexivity.
    + change (String c s ++ "/") with (String c (s ++ "/")).
      rewrite !startsWith_slash.
      destruct (Ascii.eqb c "/"); cbn [substring1].
      * rewrite <- append_assoc. apply finish_snoc.
      * change (String c (s ++ "/")) with (String c s ++ "/").
        rewrite <- append_assoc. apply finish_snoc.
Qed.

End CombinerAlgebra.

(** ** Paths below a mount point *)

Section MountFacts.

Lemma startsWith_iff (s p : string) :
  startsWith s p = true <-> exists t, s = p ++ t.
Proof.
  revert s. induction p as [|c p IH]; intro s.
  - split; [intros _; now exists s | reflexivity].
  - destruct s as [|d s]; cbn [startsWith].
    + split; [discriminate | intros [t E]; discriminate].
    + split.
      * intro H. apply andb_prop in H as [Hc Hp].
        apply Ascii.eqb_eq in Hc. subst d.
        apply IH in Hp as [t ->]. now exists t.
      * intros [t E]. cbn in E. inversion E; subst.
        rewrite Ascii.eqb_refl. apply IH. now exists t.
Qed.

Lemma slice_app (a w : string) :
  truthy w = true -> slice_0_m1 (a ++ w) = a ++ slice_0_m1 w.
Proof.
  intro H. induction a as [|c a IH]; [reflexivity|].
  cbn [append slice_0_m1]. rewrite IH.
  destruct (a ++ w) eqn:E; [|reflexivity].
  destruct a, w; discriminate.
Qed.

Lemma collapse_prefix (b y : string) :
  includes b "//" = false ->
  endsWith b "/" = false ->
  collapse_slashes (b ++ String "/" y) = b ++ collapse_slashes (String "/" y).
Proof.
  induction b as [|c b IH]; [reflexivity|].
  intros Hd He. cbn [includes] in Hd. apply orb_false_elim in Hd as [Hh Ht].
  change (String c b ++ String "/" y) with (String c (b ++ String "/" y)).
  rewrite collapse_cons.
  destruct b as [|d b].
  - rewrite endsWith_single in He. rewrite He. reflexivity.
  - rewrite endsWith_cons in He. rewrite (IH Ht He).
    change (String d b ++ String "/" y) with (String d (b ++ String "/" y)).
    rewrite startsWith_slash.
    cbn [startsWith] in Hh. rewrite andb_true_r in Hh.
    destruct (Ascii.eqb_spec c "/") as [->|N]; [|reflexivity].
    cbn [Ascii.eqb Bool.eqb andb] in Hh. now rewrite Hh.
Qed.

Lemma finish_under (b r : string) :
  normalized b = true -> b <> "/" ->
  under b (finish (b ++ String "/" r)).
Proof.
  intros Hn Hb. apply normalized_inv in Hn as [Ht [Hd [E|[_ He]]]];
    [contradiction|].
  unfold finish. rewrite (collapse_prefix _ _ Hd He).
  pose proof (collapse_head (String "/" r)) as Hh.
  destruct (collapse_slashes (String "/" r)) as [|x w]; [discriminate|].
  rewrite startsWith_slash in Hh. cbn in Hh. apply Ascii.eqb_eq in Hh. subst x.
  destruct w as [|e w].
  - rewrite endsWith_snoc, length_snoc, slice_snoc.
    destruct b as [|c b]; [discriminate|].
    cbn [String.length Nat.ltb Nat.leb andb]. rewrite Ht. now left.
  - right.
    assert (T : forall z, truthy (b ++ z) = true)
      by (intro z; now apply truthy_app_l).
    destruct ((1 <? String.length (b ++ String "/" (String e w)))%nat
              && endsWith (b ++ String "/" (String e w)) "/").
    + rewrite slice_app by reflexivity. rewrite T.
      apply startsWith_iff. cbn [slice_0_m1].
      destruct w as [|e' w].
      * exists "". now rewrite append_assoc.
      * exists (String e (slice_0_m1 (String e' w))). now rewrite append_assoc.
    + rewrite T. apply startsWith_iff. exists (String e w).
      now rewrite append_assoc.
Qed.

Lemma combine_under (b : string) (routePath : PathValue) :
  normalized b = true -> b <> "/" ->
  under b (combinePaths b routePath).
Proof.
  intros Hn Hb. unfold combinePaths.
  apply String.eqb_neq in Hb. rewrite Hb. cbn [andb].
  pose proof (normalized_inv _ Hn) as [Ht [Hd [E|[_ He]]]].
  { subst b. discriminate. }
  rewrite He. rewrite (truthy_app_l _ _ Ht). cbn [andb].
  fold (finish ((b ++ "/")
                ++ (if startsWith (normalizeRoutePath routePath) "/"
                    then substring1 (normalizeRoutePath routePath)
                    else normalizeRoutePath routePath))).
  rewrite append_assoc. apply finish_under; [exact Hn|].
  now apply String.eqb_neq.
Qed.

Lemma under_not_root (b p : string) :
  normalized b = true -> b <> "/" -> under b p -> p <> "/".
Proof.
  intros Hn Hb [->|H]; [exact Hb|].
  apply startsWith_iff in H as [t ->].
  destruct b as [|c b]; [discriminate|].
  destruct b; discriminate.
Qed.

Lemma under_trans (a b c : string) : under a b -> under b c -> under a c.
Proof.
  intros [->|Hab] Hbc; [exact Hbc|].
  destruct Hbc as [->|Hbc]; [now right|].
  right. apply startsWith_iff in Hab as [t ->].
  apply startsWith_iff in Hbc as [u ->].
  apply startsWith_iff. exists (t ++ "/" ++ u). now rewrite !append_assoc.
Qed.

End MountFacts.

(** ** Invariants of the walker *)

Section WalkerInvariants.

Variable isProtectedFn : option (ProtectionQuery -> bool).
Variable protectionMiddlewareName : option ProtectionName.

(** A property of the records relative to the base path, kept by mounting,
    holds of everything the walker emits as soon as it holds of what a
    route layer emits. *)
Lemma walker_invariant (I : string -> Prop) (R : string -> RouteInfo -> Prop) :
  (forall layer b,
      I b ->
      Forall (R b)
        (extractRoutesFromRouteLayer isProtectedFn protectionMiddlewareName
           layer b)) ->
  (forall b regexp,
      I b -> I (combinePaths b (PathString (extractBaseRoute regexp)))) ->
  (forall b regexp r,
      I b ->
      R (combinePaths b (PathString (extractBaseRoute regexp))) r -> R b r) ->
  forall router b,
    I b ->
    Forall (R b)
      (extractRoutesFromRouter isProtectedFn protectionMiddlewareName router b).
Proof.
  intros Hroute Hmount Hlift router.
  induction router using Handle_tree_ind
    with (P := fun layer =>
                 forall b,
                   I b ->
                   Forall (R b)
                     (extractRoutesFromLayer isProtectedFn
                        protectionMiddlewareName layer b)).
  - intros b _. constructor.
  - intros b Hb. cbn [extractRoutesFromLayer].
    destruct (isRouteLayer _); [now apply Hroute|].
    destruct (isNestedRouter _); [constructor|].
    destruct (isSpecialMiddleware _); constructor.
  - intros b Hb. cbn [extractRoutesFromLayer].
    destruct (isRouteLayer _); [now apply Hroute|].
    assert (M : forall rx,
               Forall (R b)
                 (extractRoutesFromRouter isProtectedFn
                    protectionMiddlewareName router
                    (combinePaths b (PathString (extractBaseRoute rx))))).
    { intro rx. eapply Forall_impl; [|apply IHrouter; now apply Hmount].
      intros r Hr. now apply (Hlift b rx). }
    destruct (isNestedRouter _).
    + destruct regexp as [rs|]; [apply M | exact (M None)].
    + destruct (isSpecialMiddleware _); [|constructor].
      destruct (handle_stack router); [apply M | constructor].
  - intros b _. constructor.
  - intros b Hb. cbn [extractRoutesFromRouter].
    apply Forall_flat_map. rewrite Forall_forall in H |- *.
    intros l Hin. now apply H.
Qed.

Lemma walker_records (R : RouteInfo -> Prop) :
  (forall layer b,
      Forall R
        (extractRoutesFromRouteLayer isProtectedFn protectionMiddlewareName
           layer b)) ->
  forall router b,
    Forall R
      (extractRoutesFromRouter isProtectedFn protectionMiddlewareName router b).
Proof.
  intros H router b.
  apply (walker_invariant (fun _ => True) (fun _ => R)); auto.
Qed.

End WalkerInvariants.

Lemma extractRoutes_records (R : RouteInfo -> Prop)
    (app : App) (config : DisplayRoutesConfig) :
  (forall router,
      app_router app = Some router ->
      Forall R
        (extractRoutesFromRouter (cfg_isProtected config)
           (cfg_protectionMiddlewareName config) router "/")) ->
  Forall R (fst (extractRoutes app config)).
Proof.
  intro H. unfold extractRoutes.
  destruct (app_router app) as [router|]; cbn [fst]; [|constructor].
  specialize (H router eq_refl).
  rewrite Forall_forall in H |- *. intros r Hr. apply H.
  exact (Subseq_In _ _ _ (filterRoutes_Subseq _ _) Hr).
Qed.

(** ** Invariants of the records *)

Lemma route_layer_Forall
    (isProtectedFn : option (ProtectionQuery -> bool))
    (protectionMiddlewareName : option ProtectionName)
    (R : RouteInfo -> Prop) (layer : Layer) (b : string) :
  (forall route m,
      layer_route layer = Some route ->
      In (m, true) (route_methods route) ->
      R {| method := toUpperCase m;
           path := combinePaths b (route_path route);
           protected :=
             determineRouteProtection (combinePaths b (route_path route)) m
               (extractMiddlewares route) isProtectedFn
               protectionMiddlewareName;
           middlewares := extractMiddlewares route |}) ->
  Forall R
    (extractRoutesFromRouteLayer isProtectedFn protectionMiddlewareName layer b).
Proof.
  intro H. unfold extractRoutesFromRouteLayer.
  destruct (layer_route layer) as [route|] eqn:E; [|constructor].
  apply Forall_forall. intros r Hr.
  apply in_map_iff in Hr as [m [<- Hm]].
  apply in_map_iff in Hm as [[k v] [<- Hk]].
  apply filter_In in Hk as [Hk Hv]. cbn [snd fst] in *. subst v.
  now apply H.
Qed.

Lemma upper_char_not_lower (c : ascii) : lower_letter (upper_char c) = false.
Proof. destruct c as [[] [] [] [] [] [] [] []]; reflexivity. Qed.

Lemma toUpperCase_no_lower (s : string) :
  all_chars (fun c => negb (lower_letter c)) (toUpperCase s) = true.
Proof.
  induction s as [|c s IH]; [reflexivity|].
  cbn [toUpperCase map_chars all_chars]. rewrite upper_char_not_lower.
  exact IH.
Qed.

(** X1: whatever the tree and the configuration, the path of every record
    that discovery returns is in normal form: not empty, no two slashes in a
    row, no trailing slash unless it is the root path. *)
Theorem record_paths_normalized (app : App) (config : DisplayRoutesConfig) :
  Forall (fun r => normalized (path r) = true)
         (fst (extractRoutes app config)).
Proof.
  apply extractRoutes_records. intros router _.
  apply walker_records. intros layer b.
  apply route_layer_Forall. intros route m _ _.
  apply combinePaths_is_normalized.
Qed.

(** X2: the method of every record that discovery returns contains no
    ASCII lower-case letter, however the tree spells its method keys. *)
Theorem record_methods_upper_case (app : App) (config : DisplayRoutesConfig) :
  Forall (fun r => all_chars (fun c => negb (lower_letter c)) (method r) = true)
         (fst (extractRoutes app config)).
Proof.
  apply extractRoutes_records. intros router _.
  apply walker_records. intros layer b.
  apply route_layer_Forall. intros route m _ _.
  apply toUpperCase_no_lower.
Qed.

(** X3: without a custom predicate and without a (non-empty) middleware
    name, every record is unprotected, whatever handlers its route has. *)
Theorem default_unprotected (app : App) (config : DisplayRoutesConfig) :
  cfg_isProtected config = None ->
  name_truthy (cfg_protectionMiddlewareName config) = false ->
  Forall (fun r => protected r = false) (fst (extractRoutes app config)).
Proof.
  intros Hf Hn. apply extractRoutes_records. intros router _.
  apply walker_records. intros layer b.
  apply route_layer_Forall. intros route m _ _.
  cbn [protected]. rewrite Hf. unfold determineRouteProtection.
  destruct (cfg_protectionMiddlewareName config); [|reflexivity].
  now rewrite Hn.
Qed.

(** X4: with a single non-empty middleware name and no custom predicate,
    a record is protected exactly when its own middleware list holds a
    handler of that name. *)
Theorem single_name_protection
    (app : App) (config : DisplayRoutesConfig) (name : string) :
  cfg_isProtected config = None ->
  cfg_protectionMiddlewareName config = Some (OneName name) ->
  name <> "" ->
  Forall (fun r => protected r = true <-> Exists (has_name name) (middlewares r))
         (fst (extractRoutes app config)).
Proof.
  intros Hf Hn Hne. apply extractRoutes_records. intros router _.
  apply walker_records. intros layer b.
  apply route_layer_Forall. intros route m _ _.
  cbn [protected middlewares]. rewrite Hf, Hn.
  rewrite determineRouteProtection_one_name by exact Hne.
  rewrite Exists_exists. reflexivity.
Qed.

(** X5: below a base path in normal form other than the root, every record
    the walker emits has a path that is the base path or lies under it. *)
Theorem walker_paths_under_base
    (isProtectedFn : option (ProtectionQuery -> bool))
    (protectionMiddlewareName : option ProtectionName)
    (router : Handle) (b : string) :
  normalized b = true ->
  b <> "/" ->
  Forall (fun r => under b (path r))
    (extractRoutesFromRouter isProtectedFn protectionMiddlewareName router b).
Proof.
  intros Hn Hb.
  apply (walker_invariant isProtectedFn protectionMiddlewareName
           (fun b => normalized b = true /\ b <> "/")
           (fun b r => under b (path r))).
  - intros layer b0 [Hn0 Hb0]. apply route_layer_Forall.
    intros route m _ _. cbn [path]. now apply combine_under.
  - intros b0 rx [Hn0 Hb0]. split; [apply combinePaths_is_normalized|].
    apply (under_not_root b0); auto. now apply combine_under.
  - intros b0 rx r [Hn0 Hb0] Hr.
    eapply under_trans; [|exact Hr]. now apply combine_under.
  - now split.
Qed.

(** X6: a router mounted on a matcher that decodes to the root path (or
    without matcher) is transparent: under a base path in normal form, the
    nested-router handler and the special-middleware handler return what
    the walker returns on the inner router with the same base path. *)
Theorem root_mount_transparent
    (isProtectedFn : option (ProtectionQuery -> bool))
    (protectionMiddlewareName : option ProtectionName)
    (layer : Layer) (h : Handle) (b : string) :
  layer_handle layer = Some h ->
  extractBaseRoute (layer_regexp layer) = "/" ->
  normalized b = true ->
  extractRoutesFromNestedRouter isProtectedFn protectionMiddlewareName layer b
  = extractRoutesFromRouter isProtectedFn protectionMiddlewareName h b
  /\ (is_some (handle_stack h) = true ->
      extractRoutesFromSpecialMiddleware isProtectedFn
        protectionMiddlewareName layer b
      = extractRoutesFromRouter isProtectedFn protectionMiddlewareName h b).
Proof.
  intros Hh Hd Hn.
  unfold extractRoutesFromNestedRouter, extractRoutesFromSpecialMiddleware.
  rewrite Hh, Hd.
  destruct (is_some (layer_regexp layer)); rewrite combine_root_right by exact Hn;
    (split; [reflexivity | now intros ->]).
Qed.

(** ** Path combiner, continued *)

(** X7: for every base path and every route path value (string, [RegExp]
    or other) the combined path is in normal form; in particular it is never
    empty. *)
Theorem combinePaths_always_normalized (basePath : string) (routePath : PathValue) :
  normalized (combinePaths basePath routePath) = true
  /\ combinePaths basePath routePath <> "".
Proof.
  pose proof (combinePaths_is_normalized basePath routePath) as H.
  split; [exact H|].
  apply normalized_inv in H as [Ht _]. intro E. rewrite E in Ht. discriminate.
Qed.

(** X8: a trailing slash on the sub-path makes no difference. *)
Theorem combinePaths_ignores_trailing_slash (basePath sub : string) :
  combinePaths basePath (PathString (sub ++ "/"))
  = combinePaths basePath (PathString sub).
Proof. apply combine_trailing_slash. Qed.

(** X9: on a path in normal form the root path is a left and a right
    identity of [combinePaths], and so is the empty sub-path on the right. *)
Theorem combinePaths_identities (s : string) :
  normalized s = true ->
  combinePaths "/" (PathString s) = s
  /\ combinePaths s (PathString "/") = s
  /\ combinePaths s (PathString "") = s.
Proof.
  intro H. split; [now apply combine_root_left|].
  split; [now apply combine_root_right|].
  rewrite <- (combine_root_right s H) at 2.
  symmetry. exact (combine_trailing_slash s "").
Qed.

(** X10: the trailing slash that decoding leaves on the matcher of a literal
    mount is absorbed by the combiner: under any base path, mounting on the
    decoded matcher of [p] gives the same path as mounting on [p] itself,
    which under the root is [p] when [p] is in normal form. *)
Theorem mount_of_compiled_literal (basePath p : string) :
  literal_path p = true ->
  combinePaths basePath (PathString (extractBaseRoute (Some (compileLiteral p))))
  = combinePaths basePath (PathString p)
  /\ (normalized p = true ->
      combinePaths "/" (PathString (extractBaseRoute (Some (compileLiteral p))))
      = p).
Proof.
  intro H.
  assert (D : extractBaseRoute (Some (compileLiteral p)) = p ++ "/").
  { destruct p as [|c s]; [discriminate|].
    unfold literal_path in H. apply andb_prop in H as [Hc Hs].
    apply Ascii.eqb_eq in Hc. subst c.
    rewrite extractBaseRoute_first_match. now rewrite fast_path_of_literal. }
  rewrite D. split; [apply combine_trailing_slash|].
  intro Hn. rewrite combine_trailing_slash. now apply combine_root_left.
Qed.

(** ** Pattern decoder, continued *)

Lemma after_first_none (pat s : string) :
  after_first pat s = None <-> includes s pat = false.
Proof.
  induction s as [|c s IH]; cbn [after_first includes].
  - destruct (startsWith "" pat); split; intro H; try discriminate; reflexivity.
  - destruct (startsWith (String c s) pat); cbn [orb].
    + split; discriminate.
    + exact IH.
Qed.

Lemma remove_special_clean (s : string) :
  all_chars (fun c => negb (regex_special c)) (remove_special s) = true.
Proof.
  induction s as [|c s IH]; [reflexivity|].
  cbn [remove_special]. destruct (regex_special c) eqn:E; [exact IH|].
  cbn [all_chars]. now rewrite E, IH.
Qed.

Lemma fast_path_decides_aux (regexString : string) :
  (extractFastPathRoute regexString = None <->
   includes regexString "^\/" = false)
  /\ forall p,
       extractFastPathRoute regexString = Some p ->
       extractBaseRoute (Some regexString) = p.
Proof.
  split.
  - rewrite <- after_first_none. unfold extractFastPathRoute.
    destruct (after_first "^\/" regexString); split; intro H;
      try discriminate; reflexivity.
  - intros p H. rewrite extractBaseRoute_first_match. now rewrite H.
Qed.

(** X11: the fast path applies exactly to the matcher texts that contain a
    caret followed by an escaped slash, and then it alone decides the result
    of [extractBaseRoute]: the standard heuristic is not consulted. *)
Theorem fast_path_decides (regexString : string) :
  (includes regexString "^\/" = false <->
   extractFastPathRoute regexString = None)
  /\ forall p,
       extractFastPathRoute regexString = Some p ->
       extractBaseRoute (Some regexString) = p.
Proof.
  destruct (fast_path_decides_aux regexString) as [A B].
  split; [symmetry; exact A | exact B].
Qed.

(** X12: whatever the standard heuristic returns starts with a slash and
    contains none of the metacharacters it strips. *)
Theorem standard_route_clean (regexString p : string) :
  extractStandardRoute regexString = Some p ->
  startsWith p "/" = true
  /\ all_chars (fun c => negb (regex_special c)) p = true.
Proof.
  unfold extractStandardRoute.
  destruct (includes regexString "^\/" || includes regexString "\/?");
    [|discriminate].
  destruct (includes regexString "\/?(?=\/|$)").
  { intro H; inversion H. now split. }
  match goal with
  | |- context [if ?b then Some "/" else _] => destruct b
  end.
  { intro H; inversion H. now split. }
  match goal with
  | |- context [remove_special ?x] =>
      pose proof (remove_special_clean x) as C;
      generalize dependent (remove_special x)
  end.
  intros q C H.
  destruct (startsWith q "/") eqn:S; inversion H; subst p; split; auto.
Qed.

(** X13: the fallback is taken exactly for the matcher texts that contain
    neither a caret followed by an escaped slash nor an escaped slash
    followed by a question mark. *)
Theorem fallback_exactly (regexString : string) :
  (extractFastPathRoute regexString = None
   /\ extractStandardRoute regexString = None)
  <-> (includes regexString "^\/" = false
       /\ includes regexString "\/?" = false).
Proof.
  pose proof (proj1 (fast_path_decides_aux regexString)) as F.
  split.
  - intros [Hf Hs]. apply F in Hf. split; [exact Hf|].
    unfold extractStandardRoute in Hs. rewrite Hf in Hs. cbn [orb] in Hs.
    destruct (includes regexString "\/?"); [|reflexivity].
    destruct (includes regexString "\/?(?=\/|$)"); [discriminate|].
    match type of Hs with
    | context [if ?b then Some "/" else _] => destruct b
    end; discriminate.
  - intros [Hc Hq]. split; [now apply F|].
    unfold extractStandardRoute. now rewrite Hc, Hq.
Qed.

(** ** Filter pipeline, continued *)

Lemma filter_filter {A : Type} (p q : A -> bool) (l : list A) :
  filter p (filter q l) = filter (fun x => q x && p x) l.
Proof.
  induction l as [|x l IH]; [reflexivity|].
  cbn [filter]. destruct (q x); cbn [andb filter]; [|exact IH].
  destruct (p x); congruence.
Qed.

Lemma filterRoutes_keeps (routes : list RouteInfo) (filters : RouteFilters) :
  filterRoutes routes filters = filter (keeps filters) routes.
Proof.
  rewrite filterRoutes_stages. rewrite !filter_filter.
  apply filter_ext. intro r. unfold keeps. now rewrite !andb_assoc.
Qed.

(** X14: the five stages amount to one pass: [filterRoutes] keeps, in
    their order, exactly the records that pass the test of every configured
    filter, so the order in which the filters are applied does not matter. *)
Theorem filterRoutes_one_pass (routes : list RouteInfo) (filters : RouteFilters) :
  filterRoutes routes filters = filter (keeps filters) routes
  /\ forall r,
       In r (filterRoutes routes filters)
       <-> In r routes
           /\ domain_stage (filterDomain filters) r = true
           /\ prefix_stage (pathPrefix filters) r = true
           /\ unprotected_stage (showUnprotectedOnly filters) r = true
           /\ include_stage (includeFilter filters) r = true
           /\ exclude_stage (excludeFilter filters) r = true.
Proof.
  split; [apply filterRoutes_keeps|].
  intro r. rewrite filterRoutes_keeps, filter_In. unfold keeps.
  rewrite !andb_true_iff. tauto.
Qed.

(** X15: filtering is idempotent: filtering an already filtered list with
    the same filters changes nothing. *)
Theorem filterRoutes_idempotent (routes : list RouteInfo) (filters : RouteFilters) :
  filterRoutes (filterRoutes routes filters) filters
  = filterRoutes routes filters.
Proof.
  rewrite !filterRoutes_keeps. rewrite filter_filter.
  apply filter_ext. intro r. now destruct (keeps filters r).
Qed.

(** X16: with [showUnprotectedOnly] set, discovery returns no protected
    record, whatever the other options. *)
Theorem unprotected_only (app : App) (config : DisplayRoutesConfig) :
  cfg_showUnprotectedOnly config = Some true ->
  Forall (fun r => protected r = false) (fst (extractRoutes app config)).
Proof.
  intro H. unfold extractRoutes.
  destruct (app_router app) as [router|]; cbn [fst]; [|constructor].
  apply Forall_forall. intros r Hr.
  rewrite filterRoutes_keeps in Hr. apply filter_In in Hr as [_ Hk].
  unfold keeps in Hk. cbn [showUnprotectedOnly] in Hk. rewrite H in Hk.
  rewrite !andb_true_iff in Hk. destruct Hk as [[[[_ _] Hu] _] _].
  cbn [unprotected_stage] in Hu. now apply negb_true_iff in Hu.
Qed.

Lemma filter_none {A : Type} (p : A -> bool) (l : list A) :
  (forall x, p x = false) -> filter p l = [].
Proof.
  intro H. induction l as [|x l IH]; [reflexivity|].
  cbn [filter]. now rewrite H.
Qed.

(** X17: an empty array of domain tokens filters every record out. *)
Theorem empty_domain_list (app : App) (config : DisplayRoutesConfig) :
  cfg_filterDomain config = Some (ManyDomains []) ->
  fst (extractRoutes app config) = [].
Proof.
  intro H. unfold extractRoutes.
  destruct (app_router app) as [router|]; cbn [fst]; [|reflexivity].
  rewrite filterRoutes_keeps. apply filter_none.
  intro r. unfold keeps. cbn [filterDomain]. now rewrite H.
Qed.

Lemma lower_char_slash (c : ascii) :
  Ascii.eqb (lower_char c) "/" = Ascii.eqb c "/".
Proof. destruct c as [[] [] [] [] [] [] [] []]; reflexivity. Qed.

(** X18: a leading slash on a domain token makes no difference. *)
Theorem domain_token_leading_slash
    (routes : list RouteInfo) (token : string) :
  startsWith token "/" = false ->
  applyDomainFilter routes (OneDomain (String "/" token))
  = applyDomainFilter routes (OneDomain token).
Proof.
  intro H. unfold applyDomainFilter. apply filter_ext. intro r.
  cbn [existsb]. f_equal. unfold domain_matches.
  change (toLowerCase (String "/" token)) with (String "/" (toLowerCase token)).
  rewrite startsWith_slash. cbn [Ascii.eqb Bool.eqb substring1].
  assert (L : startsWith (toLowerCase token) "/" = false).
  { destruct token as [|c t]; [reflexivity|].
    change (toLowerCase (String c t)) with (String (lower_char c) (toLowerCase t)).
    rewrite startsWith_slash in H |- *. now rewrite lower_char_slash. }
  now rewrite L.
Qed.

(** ** Presentation helpers *)

Section DomainFacts.

Lemma includes_slash_cons (c : ascii) (s : string) :
  includes (String c s) "/" = Ascii.eqb c "/" || includes s "/".
Proof. cbn [includes]. now rewrite startsWith_slash. Qed.

Lemma split_slash_segments (p : string) :
  split_slash p <> []
  /\ Forall (fun seg => includes seg "/" = false) (split_slash p).
Proof.
  induction p as [|c p [Hne IH]].
  - split; [discriminate | repeat constructor].
  - cbn [split_slash]. destruct (Ascii.eqb c "/") eqn:E.
    + split; [discriminate | constructor; [reflexivity | exact IH]].
    + destruct (split_slash p) as [|h t]; [contradiction|].
      split; [discriminate|]. inversion IH; subst.
      constructor; [|assumption].
      rewrite includes_slash_cons, E. assumption.
Qed.

Lemma split_slash_lower (p : string) :
  split_slash (toLowerCase p) = map toLowerCase (split_slash p).
Proof.
  induction p as [|c p IH]; [reflexivity|].
  change (toLowerCase (String c p)) with (String (lower_char c) (toLowerCase p)).
  cbn [split_slash]. rewrite lower_char_slash, IH.
  destruct (Ascii.eqb c "/"); [reflexivity|].
  destruct (split_slash p); reflexivity.
Qed.

Lemma filter_truthy_lower (l : list string) :
  filter truthy (map toLowerCase l) = map toLowerCase (filter truthy l).
Proof.
  induction l as [|s l IH]; [reflexivity|].
  cbn [map filter]. rewrite IH. destruct s; reflexivity.
Qed.

Lemma segments_spec (p : string) :
  Forall (fun seg => truthy seg = true /\ includes seg "/" = false)
         (filter truthy (split_slash p)).
Proof.
  apply Forall_forall. intros seg H. apply filter_In in H as [Hin Ht].
  split; [exact Ht|].
  pose proof (proj2 (split_slash_segments p)) as F.
  rewrite Forall_forall in F. now apply F.
Qed.

Lemma extractDomain_cases (p : string) :
  extractDomain p = "root"
  \/ In (extractDomain p) (filter truthy (split_slash p)).
Proof.
  unfold extractDomain.
  destruct (filter truthy (split_slash p)) as [|first [|second rest]];
    [now left | now left |].
  destruct (String.eqb first "api"); [right | now left].
  cbn. auto.
Qed.

End DomainFacts.

(** X19: the group name [extractDomain] gives a path is never empty and
    contains no slash; it is [root] or one of the non-empty segments of the
    path. *)
Theorem extractDomain_segment (p : string) :
  truthy (extractDomain p) = true
  /\ includes (extractDomain p) "/" = false
  /\ (extractDomain p = "root"
      \/ In (extractDomain p) (filter truthy (split_slash p))).
Proof.
  pose proof (extractDomain_cases p) as C.
  destruct C as [E|H].
  - rewrite E. repeat split. now left.
  - pose proof (segments_spec p) as F. rewrite Forall_forall in F.
    destruct (F _ H) as [Ht Hs]. repeat split; auto.
Qed.

(** X20: a record displayed under a group other than [root] is kept by the
    domain filter for that group's name. *)
Theorem group_name_matches_domain_filter (r : RouteInfo) :
  extractDomain (path r) <> "root" ->
  domain_matches r (extractDomain (path r)) = true.
Proof.
  intro Hr. destruct (extractDomain_cases (path r)) as [E|H]; [contradiction|].
  pose proof (segments_spec (path r)) as F. rewrite Forall_forall in F.
  destruct (F _ H) as [Ht Hs].
  unfold domain_matches.
  set (d := extractDomain (path r)) in *.
  assert (L : startsWith (toLowerCase d) "/" = false).
  { destruct d as [|c t]; [reflexivity|].
    change (toLowerCase (String c t)) with (String (lower_char c) (toLowerCase t)).
    rewrite startsWith_slash, lower_char_slash.
    rewrite includes_slash_cons in Hs. now apply orb_false_elim in Hs as [Hs _]. }
  rewrite L, split_slash_lower, filter_truthy_lower.
  apply existsb_exists. exists (toLowerCase d).
  split; [now apply in_map | apply String.eqb_refl].
Qed.

(** X21: the label [formatDomainName] gives is empty only for the empty
    name, so the label of the group of any path is not empty. *)
Theorem formatDomainName_not_empty (p : string) :
  (forall domain, formatDomainName domain = "" <-> domain = "")
  /\ truthy (formatDomainName (extractDomain p)) = true.
Proof.
  assert (A : forall domain, formatDomainName domain = "" <-> domain = "").
  { intro domain. unfold formatDomainName.
    destruct (String.eqb_spec domain "root") as [->|N].
    - split; discriminate.
    - destruct domain; split; intro H; try discriminate; reflexivity. }
  split; [exact A|].
  pose proof (extractDomain_cases p) as C.
  destruct (formatDomainName (extractDomain p)) eqn:E; [|reflexivity].
  apply (proj1 (A _)) in E. destruct C as [C|C].
  - rewrite E in C. discriminate.
  - pose proof (segments_spec p) as F. rewrite Forall_forall in F.
    destruct (F _ C) as [Ht _]. rewrite E in Ht. discriminate.
Qed.

(** ** Route layers *)


(** ** The properties above at concrete inputs *)

Lemma default_unprotected_witness :
  cfg_isProtected emptyConfig = None
  /\ name_truthy (cfg_protectionMiddlewareName emptyConfig) = false
  /\ Forall (fun r => protected r = false)
       (fst (extractRoutes guardedApp emptyConfig)).
Proof.
  split; [reflexivity|]. split; [reflexivity|].
  apply (default_unprotected guardedApp emptyConfig); reflexivity.
Defined.

Lemma single_name_protection_witness :
  cfg_isProtected (optionsConfig (Some (OneName "requireAuth")) None None) = None
  /\ "requireAuth" <> ""
  /\ Forall (fun r => protected r = true
                      <-> Exists (has_name "requireAuth") (middlewares r))
       (fst (extractRoutes guardedApp
               (optionsConfig (Some (OneName "requireAuth")) None None))).
Proof.
  split; [reflexivity|]. split; [discriminate|].
  apply (single_name_protection guardedApp
           (optionsConfig (Some (OneName "requireAuth")) None None)
           "requireAuth");
    [reflexivity | reflexivity | discriminate].
Defined.

Lemma walker_paths_under_base_witness :
  normalized "/api" = true
  /\ "/api" <> "/"
  /\ Forall (fun r => under "/api" (path r))
       (extractRoutesFromRouter None None usersRouter "/api").
Proof.
  split; [reflexivity|]. split; [discriminate|].
  apply (walker_paths_under_base None None usersRouter "/api");
    [reflexivity | discriminate].
Defined.

Lemma root_mount_transparent_witness :
  extractBaseRoute (Some "/^\/?(?=\/|$)/i") = "/"
  /\ normalized "/api" = true
  /\ extractRoutesFromNestedRouter None None
       (mountedRouter "/^\/?(?=\/|$)/i"
          [LayerObject (Some usersRoute) None None None]) "/api"
     = extractRoutesFromRouter None None usersRouter "/api".
Proof.
  split; [reflexivity|]. split; [reflexivity|].
  apply (proj1 (root_mount_transparent None None
                  (mountedRouter "/^\/?(?=\/|$)/i"
                     [LayerObject (Some usersRoute) None None None])
                  usersRouter "/api" eq_refl eq_refl eq_refl)).
Defined.

Lemma combinePaths_identities_witness :
  normalized "/api/users" = true
  /\ combinePaths "/" (PathString "/api/users") = "/api/users"
  /\ combinePaths "/api/users" (PathString "/") = "/api/users"
  /\ combinePaths "/api/users" (PathString "") = "/api/users".
Proof.
  split; [reflexivity|].
  apply (combinePaths_identities "/api/users"). reflexivity.
Defined.

Lemma mount_of_compiled_literal_witness :
  literal_path "/users" = true
  /\ combinePaths "/api"
       (PathString (extractBaseRoute (Some (compileLiteral "/users"))))
     = combinePaths "/api" (PathString "/users").
Proof.
  split; [reflexivity|].
  apply (proj1 (mount_of_compiled_literal "/api" "/users" eq_refl)).
Defined.

Lemma standard_route_clean_witness :
  extractStandardRoute "/api\/(\d+)\/?$/i" = Some "/api/"
  /\ startsWith "/api/" "/" = true
  /\ all_chars (fun c => negb (regex_special c)) "/api/" = true.
Proof.
  split; [reflexivity|].
  apply (standard_route_clean "/api\/(\d+)\/?$/i" "/api/"). reflexivity.
Defined.

Lemma unprotected_only_witness :
  cfg_showUnprotectedOnly
    (optionsConfig (Some (OneName "requireAuth")) (Some true) None) = Some true
  /\ Forall (fun r => protected r = false)
       (fst (extractRoutes guardedApp
               (optionsConfig (Some (OneName "requireAuth")) (Some true) None))).
Proof.
  split; [reflexivity|].
  apply (unprotected_only guardedApp
           (optionsConfig (Some (OneName "requireAuth")) (Some true) None)).
  reflexivity.
Defined.

Lemma empty_domain_list_witness :
  cfg_filterDomain (optionsConfig None None (Some (ManyDomains [])))
  = Some (ManyDomains [])
  /\ fst (extractRoutes guardedApp
            (optionsConfig None None (Some (ManyDomains [])))) = [].
Proof.
  split; [reflexivity|].
  apply (empty_domain_list guardedApp
           (optionsConfig None None (Some (ManyDomains [])))).
  reflexivity.
Defined.

Lemma domain_token_leading_slash_witness :
  startsWith "users" "/" = false
  /\ applyDomainFilter (fst (extractRoutes guardedApp emptyConfig))
       (OneDomain "/users")
     = applyDomainFilter (fst (extractRoutes guardedApp emptyConfig))
         (OneDomain "users").
Proof.
  split; [reflexivity|].
  apply (domain_token_leading_slash
           (fst (extractRoutes guardedApp emptyConfig)) "users").
  reflexivity.
Defined.

Lemma group_name_matches_domain_filter_witness :
  extractDomain "/api/Users/42" <> "root"
  /\ domain_matches
       {| method := "GET"; path := "/api/Users/42";
          protected := false; middlewares := [] |}
       (extractDomain "/api/Users/42") = true.
Proof.
  split; [discriminate|].
  apply (group_name_matches_domain_filter
           {| method := "GET"; path := "/api/Users/42";
              protected := false; middlewares := [] |}).
  discriminate.
Defined.

